(** * better-tool-library: material catalogue and the tool-database manager

    A shallow embedding of [btl/feeds/material.py] (the catalogue of
    machinable materials) and of [scripts/tooldb-manager.py] (the
    command-line manager: library selection, interactive tool creation
    and the command dispatch), followed by the properties established about
    them.

    Conventions.
    - Python [int] is [Z]; the integer literals of the speed tables stay
      integers and are injected into the reals only where a formula divides.
    - Python [float] arithmetic of the feeds formulas is read over the real
      numbers ([R]): the formulas are the mathematical ones, rounding is
      outside the model.
    - Python [str] is [string] (a byte string: a label is its UTF-8
      encoding, and byte-wise lexicographic order agrees with Python's
      code-point order on it).
    - A Python [dict] written as a literal is an association list read with
      [dict_get]; the parameter dictionary of a tool, which is updated by
      key, is a [gmap].
    - Terminal interaction threads an explicit [world]: the lines still to
      be read from standard input and what has been written so far. *)

From Stdlib Require Import ZArith List String Ascii Bool Lia Reals Lra QArith.
From Stdlib Require Import Machin DecimalString Sorted Permutation.
From Stdlib Require Import DecimalPos DecimalFacts.
From stdpp Require Import gmap strings.
Import ListNotations.
Open Scope string_scope.
Open Scope Z_scope.

(* ===================================================================== *)
(** * Part I: definitions *)
(* ===================================================================== *)

(** ** [btl/feeds/const.py] (imported by [material.py]) *)

Module const.

(** Modelled from the spec: the enumeration [Operation] lives in
    [btl/feeds/const.py]. The members are MILLING, SLOTTING and DRILLING,
    with TURNING and PARTING reserved (the catalogue mentions both in
    entries that are commented out). *)
Inductive Operation : Set :=
| MILLING | SLOTTING | DRILLING | TURNING | PARTING.

(** Modelled from the spec: the tool-material class selects between the
    [hss_*] and the [carbide_*] attributes of a material. *)
Inductive ToolMaterial : Set := HSS | CARBIDE.

Definition Operation_eqb (a b : Operation) : bool :=
  match a, b with
  | MILLING, MILLING | SLOTTING, SLOTTING | DRILLING, DRILLING
  | TURNING, TURNING | PARTING, PARTING => true
  | _, _ => false
  end.

End const.

(** ** [btl/feeds/material.py] *)

Module material.
Import const.

(** A speed range [(lo, hi)] in m/min; [None] is Python's [None]. *)
Definition speed_range : Set := (option Z * option Z)%type.

(** A speed table is the dictionary literal of the class body. *)
Definition speed_table : Set := list (Operation * speed_range).

Fixpoint dict_get (t : speed_table) (op : Operation) : option speed_range :=
  match t with
  | [] => None
  | (k, v) :: t' => if Operation_eqb k op then Some v else dict_get t' op
  end.

(** [0.04550260618944] *)
Definition METRIC_POWER_FACTOR : Q := (4550260618944 # 100000000000000)%Q.

(** The attributes every material class defines. [power_scale] is the
    literal that multiplies [METRIC_POWER_FACTOR] in the class body. *)
Record Material : Set := {
  name : string;
  power_scale : Q;
  hss_chipload_divisor : Z;
  hss_speeds : speed_table;
  carbide_chipload_divisor : Z;
  carbide_speeds : speed_table
}.

Definition power_factor (m : Material) : Q :=
  (power_scale m * METRIC_POWER_FACTOR)%Q.

Definition rng (lo hi : Z) : speed_range := (Some lo, Some hi).
Definition unspecified : speed_range := (None, None).

Definition Aluminium6061 : Material := {|
  name := "Aluminium Alloy (e.g. 6061)";
  power_scale := (33 # 100)%Q;
  hss_chipload_divisor := 160;
  hss_speeds :=
    [ (MILLING, rng 152 182); (SLOTTING, unspecified); (DRILLING, rng 106 122) ];
  carbide_chipload_divisor := 80;
  carbide_speeds :=
    [ (MILLING, rng 640 865); (SLOTTING, rng 425 575); (DRILLING, rng 215 290) ]
|}.

Definition Aluminium7075 : Material := {|
  name := "Aluminium Alloy (7075)";
  power_scale := (33 # 100)%Q;
  hss_chipload_divisor := 160;
  hss_speeds :=
    [ (MILLING, rng 60 300); (SLOTTING, unspecified); (DRILLING, rng 106 122) ];
  carbide_chipload_divisor := 80;
  carbide_speeds :=
    [ (MILLING, rng 400 545); (SLOTTING, rng 270 360); (DRILLING, rng 135 180) ]
|}.

Definition CopperAlloy : Material := {|
  name := "Copper Alloy";
  power_scale := (80 # 100)%Q;
  hss_chipload_divisor := 160;
  hss_speeds :=
    [ (MILLING, rng 60 300); (SLOTTING, unspecified); (DRILLING, rng 24 60) ];
  carbide_chipload_divisor := 80;
  carbide_speeds :=
    [ (MILLING, rng 280 555); (SLOTTING, rng 185 370); (DRILLING, rng 95 185) ]
|}.

Definition Iron : Material := {|
  name := "Iron";
  power_scale := (85 # 100)%Q;
  hss_chipload_divisor := 200;
  hss_speeds :=
    [ (MILLING, rng 60 250); (SLOTTING, unspecified); (DRILLING, rng 15 30) ];
  carbide_chipload_divisor := 100;
  carbide_speeds :=
    [ (MILLING, rng 225 305); (SLOTTING, rng 230 315); (DRILLING, rng 190 255) ]
|}.

Definition ToolSteel : Material := {|
  name := "Tool Steel (640-670N/mm²)";
  power_scale := (10 # 10)%Q;
  hss_chipload_divisor := 250;
  hss_speeds :=
    [ (MILLING, rng 60 100); (SLOTTING, unspecified); (DRILLING, rng 7 15) ];
  carbide_chipload_divisor := 300;
  carbide_speeds :=
    [ (MILLING, rng 95 130); (SLOTTING, rng 90 120); (DRILLING, rng 65 85) ]
|}.

Definition LowCarbonSteel : Material := {|
  name := "Low Carbon Steel (340-690N/mm²)";
  power_scale := (10 # 10)%Q;
  hss_chipload_divisor := 250;
  hss_speeds :=
    [ (MILLING, rng 60 100); (SLOTTING, unspecified); (DRILLING, rng 6 18) ];
  carbide_chipload_divisor := 300;
  carbide_speeds :=
    [ (MILLING, rng 125 170); (SLOTTING, rng 115 155); (DRILLING, rng 80 110) ]
|}.

Definition Stainless : Material := {|
  name := "Stainless Steel";
  power_scale := (80 # 100)%Q;
  hss_chipload_divisor := 200;
  hss_speeds :=
    [ (MILLING, rng 60 80); (SLOTTING, unspecified); (DRILLING, rng 7 15) ];
  carbide_chipload_divisor := 200;
  carbide_speeds :=
    [ (MILLING, rng 100 135); (SLOTTING, rng 95 130); (DRILLING, rng 45 60) ]
|}.

Definition Titanium : Material := {|
  name := "Titanium (900-1200N/mm²)";
  power_scale := (80 # 100)%Q;
  hss_chipload_divisor := 200;
  hss_speeds :=
    [ (MILLING, rng 5 7); (SLOTTING, unspecified); (DRILLING, rng 6 15) ];
  carbide_chipload_divisor := 250;
  carbide_speeds :=
    [ (MILLING, rng 45 60); (SLOTTING, rng 50 70); (DRILLING, rng 50 70) ]
|}.

Definition Plastic : Material := {|
  name := "Plastic";
  power_scale := (20 # 100)%Q;
  hss_chipload_divisor := 125;
  hss_speeds :=
    [ (MILLING, rng 200 300); (SLOTTING, unspecified); (DRILLING, rng 100 300) ];
  carbide_chipload_divisor := 40;
  carbide_speeds :=
    [ (MILLING, rng 100 1000); (SLOTTING, unspecified); (DRILLING, rng 100 1000) ]
|}.

Definition Softwood : Material := {|
  name := "Wood (soft)";
  power_scale := (20 # 100)%Q;
  hss_chipload_divisor := 100;
  hss_speeds :=
    [ (MILLING, rng 100 1300); (SLOTTING, unspecified); (DRILLING, rng 100 1000) ];
  carbide_chipload_divisor := 80;
  carbide_speeds :=
    [ (MILLING, rng 100 1300); (SLOTTING, unspecified); (DRILLING, rng 100 1300) ]
|}.

Definition Hardwood : Material := {|
  name := "Hardwood";
  power_scale := (30 # 100)%Q;
  hss_chipload_divisor := 100;
  hss_speeds :=
    [ (MILLING, rng 100 1300); (SLOTTING, unspecified); (DRILLING, rng 100 1300) ];
  carbide_chipload_divisor := 80;
  carbide_speeds :=
    [ (MILLING, rng 100 1300); (SLOTTING, unspecified); (DRILLING, rng 100 1300) ]
|}.

(** The classes of the module, in the order they are defined. *)
Definition catalog : list Material :=
  [ Aluminium6061; Aluminium7075; CopperAlloy; Iron; ToolSteel;
    LowCarbonSteel; Stainless; Titanium; Plastic; Softwood; Hardwood ].

(** Attribute selection by tool-material class. *)
Definition chipload_divisor (m : Material) (tm : ToolMaterial) : Z :=
  match tm with
  | HSS => hss_chipload_divisor m
  | CARBIDE => carbide_chipload_divisor m
  end.

Definition speeds (m : Material) (tm : ToolMaterial) : speed_table :=
  match tm with
  | HSS => hss_speeds m
  | CARBIDE => carbide_speeds m
  end.

(** The materials whose carbide table leaves SLOTTING unspecified. *)
Definition carbide_slotting_unspecified : list Material :=
  [Plastic; Softwood; Hardwood].

End material.

(** ** The speeds-and-feeds derivation *)

Module engine.
Import const material.
Local Open Scope R_scope.

(** Modelled from the spec: the two failures of the derivation. With the
    material, the operation and the tool-material class given as values of
    their types, only [MissingDataError] can occur below. *)
Inductive error : Set := NotFoundError | MissingDataError.

(** Modelled from the spec: the function that turns the catalogue data
    into a recommendation is not part of [material.py], which only fixes
    the convention [chipload = DIAMETER/divisor] in its notes. Chipload is
    the tool diameter divided by the divisor the material gives for the
    tool-material class. *)
Definition chipload (m : Material) (tm : ToolMaterial) (d : R) : R :=
  d / IZR (chipload_divisor m tm).

(** Modelled from the spec: the surface-speed-to-RPM conversion,
    [speed * 1000 / (pi * diameter)], applied to one bound. *)
Definition spindle_speed (speed d : R) : R := speed * 1000 / (PI * d).

(** Modelled from the spec: feed rate for one bound,
    [spindle_speed * chipload * flute_count]. *)
Definition feed_rate (rpm cl : R) (flutes : nat) : R := rpm * cl * INR flutes.

(** Modelled from the spec: the result of [recommend]. *)
Record Recommendation : Type := {
  chipload_mm : R;
  surface_speed_range_m_per_min : R * R;
  spindle_speed_range_rpm : R * R;
  feed_rate_range_mm_per_min : R * R;
  estimated_power_kw : R
}.

Section Recommend.
(** The ratio that derives a range from the MILLING range is left open
    by the spec; the flute count comes from the tool and the removal
    rate from the caller. *)
Variable estimation_ratio : R.
Variable flute_count : nat.
Variable material_removal_rate : R.

(** Modelled from the spec: the range of the table when both bounds are
    given; the MILLING range scaled by the ratio when the entry is the
    sentinel [(None, None)]; [MissingDataError] when there is no entry,
    when only one bound is given, or when MILLING itself cannot serve. *)
Definition surface_speed_range (m : Material) (tm : ToolMaterial)
    (op : Operation) : error + R * R :=
  match dict_get (speeds m tm) op with
  | Some (Some lo, Some hi) => inr (IZR lo, IZR hi)
  | Some (None, None) =>
      match dict_get (speeds m tm) MILLING with
      | Some (Some lo, Some hi) =>
          inr (estimation_ratio * IZR lo, estimation_ratio * IZR hi)
      | _ => inl MissingDataError
      end
  | _ => inl MissingDataError
  end.

(** Modelled from the spec: [recommend(material, tool_material,
    operation, tool_diameter_mm)], every range computed bound by
    bound. *)
Definition recommend (m : Material) (tm : ToolMaterial) (op : Operation)
    (d : R) : error + Recommendation :=
  match surface_speed_range m tm op with
  | inl e => inl e
  | inr (lo, hi) =>
      let cl := chipload m tm d in
      let rpm_lo := spindle_speed lo d in
      let rpm_hi := spindle_speed hi d in
      inr {| chipload_mm := cl;
             surface_speed_range_m_per_min := (lo, hi);
             spindle_speed_range_rpm := (rpm_lo, rpm_hi);
             feed_rate_range_mm_per_min :=
               (feed_rate rpm_lo cl flute_count,
                feed_rate rpm_hi cl flute_count);
             estimated_power_kw :=
               Q2R (power_factor m) * material_removal_rate |}
  end.
End Recommend.

(** The scenario of the spec: Aluminium6061, carbide, milling, 6.0 mm. *)
Definition Aluminium6061_carbide_milling_6mm
    (ratio : R) (flutes : nat) (mrr : R) : error + Recommendation :=
  recommend ratio flutes mrr Aluminium6061 CARBIDE MILLING 6.

(** A quoted integer RPM figure approximates a speed when it is the
    speed rounded to the nearest integer. *)
Definition approx_rpm (x : R) (n : Z) : Prop := Rabs (x - IZR n) <= 1 / 2.

End engine.


(** ** The Python runtime the script relies on *)

Module py.

(** The exceptions that occur in the script and in what it calls.
    [SystemExit] carries the exit status. *)
Inductive exn : Set :=
| ValueError | IndexError | EOFError | ImportError | AttributeError
| ValidationError
| SystemExit (status : Z)
| OtherError (what : string).

(** A serializer is built from the format key and the DB name:
    [serializers.serializers[args.format](args.name)]. *)
Record Serializer : Set := { ser_format : string; ser_name : string }.

(** What the process does to the persistent store, in order. *)
Inductive store_event : Set :=
| LoadedDB (s : Serializer)
| SavedDB (s : Serializer)
| SavedLibrary (library_label : string) (s : Serializer).

(** The terminal and the store as the process sees them: the lines
    still to be read by [input], the chunks the script has written to
    standard output and to standard error, and the store events so far.
    The traceback the interpreter prints when an exception is not caught
    is no part of [stderr]; [exit_status] tells how such a run ends. *)
Record world : Set := {
  stdin : list string;
  stdout : list string;
  stderr : list string;
  store_log : list store_event
}.

Definition M (A : Type) : Type := world -> (exn + A) * world.

Definition ret {A} (a : A) : M A := fun w => (inr a, w).

Definition raise {A} (e : exn) : M A := fun w => (inl e, w).

Definition bind {A B} (c : M A) (k : A -> M B) : M B :=
  fun w =>
    match c w with
    | (inl e, w') => (inl e, w')
    | (inr a, w') => k a w'
    end.

(** The result of a call that touches neither terminal nor store. *)
Definition lift {A} (r : exn + A) : M A := fun w => (r, w).

Definition write_stdout (s : string) (w : world) : world :=
  {| stdin := stdin w; stdout := (stdout w ++ [s])%list;
     stderr := stderr w; store_log := store_log w |}.

Definition write_stderr (s : string) (w : world) : world :=
  {| stdin := stdin w; stdout := stdout w;
     stderr := (stderr w ++ [s])%list; store_log := store_log w |}.

Definition record_event (e : store_event) (w : world) : world :=
  {| stdin := stdin w; stdout := stdout w;
     stderr := stderr w; store_log := (store_log w ++ [e])%list |}.

Definition newline : string := String (ascii_of_nat 10) "".

(** [print(s)] *)
Definition print (s : string) : M unit :=
  fun w => (inr tt, write_stdout (s ++ newline) w).

(** [sys.stderr.write(s)] *)
Definition stderr_write (s : string) : M unit :=
  fun w => (inr tt, write_stderr s w).

Definition log_event (e : store_event) : M unit :=
  fun w => (inr tt, record_event e w).

(** [input(prompt)]: the prompt is written, then a line is read;
    [EOFError] at the end of the input. *)
Definition input (prompt : string) : M string :=
  fun w =>
    match stdin w with
    | [] => (inl EOFError, write_stdout prompt w)
    | line :: rest =>
        (inr line,
         {| stdin := rest; stdout := (stdout w ++ [prompt])%list;
            stderr := stderr w; store_log := store_log w |})
    end.

(** What one pass through the body of a [while True:] loop does after
    its [input]: [continue], leave the loop with a value, or raise. *)
Inductive step (A : Type) : Type :=
| Continue
| Break (a : A)
| Raise (e : exn).
Arguments Continue {A}.
Arguments Break {A} a.
Arguments Raise {A} e.

(** [while True: line = input(prompt); body], by recursion on the lines
    that remain to be read: every pass reads one. *)
Fixpoint ask_until {A} (prompt : string) (body : string -> step A)
    (lines out : list string) : (exn + A) * (list string * list string) :=
  match lines with
  | [] => (inl EOFError, ([], (out ++ [prompt])%list))
  | line :: rest =>
      match body line with
      | Continue => ask_until prompt body rest (out ++ [prompt])%list
      | Break a => (inr a, (rest, (out ++ [prompt])%list))
      | Raise e => (inl e, (rest, (out ++ [prompt])%list))
      end
  end.

Definition while_input {A} (prompt : string) (body : string -> step A)
    : M A :=
  fun w =>
    let '(r, (rest, out)) := ask_until prompt body (stdin w) (stdout w) in
    (r, {| stdin := rest; stdout := out;
           stderr := stderr w; store_log := store_log w |}).

Declare Scope py_scope.
Delimit Scope py_scope with py.
Notation "'let*' x ':=' c 'in' k" := (bind c (fun x => k))
  (at level 10, x name, c at level 100, k at level 200) : py_scope.
Notation "'do' c 'then' k" := (bind c (fun _ => k))
  (at level 10, c at level 100, k at level 200) : py_scope.

(** *** Strings and integers *)

(** ['{}'.format(n)] for an integer. *)
Definition str_of_int (n : Z) : string := NilZero.string_of_int (Z.to_int n).

(** ['{}'.format(x)] for [x] an integer or [None]. *)
Definition str_of_optional_int (x : option Z) : string :=
  match x with
  | Some n => str_of_int n
  | None => "None"
  end.

(** [sep.join(l)] *)
Fixpoint join (sep : string) (l : list string) : string :=
  match l with
  | [] => ""
  | [s] => s
  | s :: l' => s ++ sep ++ join sep l'
  end.

(** [x in l] for a list of strings. *)
Definition contains (l : list string) (x : string) : bool :=
  existsb (String.eqb x) l.

(** The white space [int] strips from an ASCII string: TAB, LF, VT, FF,
    CR and the space. *)
Definition is_space (c : ascii) : bool :=
  let n := nat_of_ascii c in
  ((9 <=? n)%nat && (n <=? 13)%nat) || (n =? 32)%nat.

Definition digit_of (c : ascii) : option Z :=
  let n := Z.of_nat (nat_of_ascii c) in
  if (48 <=? n) && (n <=? 57) then Some (n - 48) else None.

Fixpoint lstrip (s : string) : string :=
  match s with
  | String c s' => if is_space c then lstrip s' else s
  | EmptyString => EmptyString
  end.

Fixpoint rstrip (s : string) : string :=
  match s with
  | String c s' =>
      match rstrip s' with
      | EmptyString => if is_space c then EmptyString else String c EmptyString
      | t => String c t
      end
  | EmptyString => EmptyString
  end.

(** A run of decimal digits in which single underscores may separate
    digits; [after_digit] tells whether the previous character was one. *)
Fixpoint digits (s : string) (acc : Z) (after_digit : bool) : option Z :=
  match s with
  | EmptyString => if after_digit then Some acc else None
  | String c s' =>
      match digit_of c with
      | Some d => digits s' (10 * acc + d) true
      | None =>
          if Ascii.eqb c "_" && after_digit then digits s' acc false
          else None
      end
  end.

(** [int(s)], base ten, for a string of ASCII characters that stays
    under every limit on digit strings: white space is stripped at both
    ends, a sign may come first, then digits. [None] stands for
    [ValueError]. *)
Definition int_of_plain (s : string) : option Z :=
  match lstrip (rstrip s) with
  | String "+" t => digits t 0 false
  | String "-" t => option_map Z.opp (digits t 0 false)
  | t => digits t 0 false
  end.

Fixpoint all_ascii (s : string) : bool :=
  match s with
  | EmptyString => true
  | String c s' => (nat_of_ascii c <? 128)%nat && all_ascii s'
  end.

(** A line is plain when all its characters are ASCII and it has at most
    640 of them. On a plain line [int] depends on the line alone. *)
Definition plain (s : string) : bool :=
  all_ascii s && (String.length s <=? 640)%nat.

Section Int.
(** Beyond plain lines the value of [int] depends on the interpreter: on
    its Unicode tables, for the decimal digits and the white space outside
    ASCII, and on its limit for digit strings (4300 digits unless
    configured otherwise, and never below 640). What [int] returns on a
    line that is not plain is therefore a parameter, [None] standing for
    [ValueError]. *)
Variable int_elsewhere : string -> option Z.

(** [int(s)] for a string. *)
Definition int_of_str (s : string) : option Z :=
  if plain s then int_of_plain s else int_elsewhere s.
End Int.

(** [l[i]] on a list: negative indices count from the end, anything
    outside [-len(l) <= i < len(l)] is an [IndexError] ([None]). *)
Definition getitem {A} (l : list A) (i : Z) : option A :=
  let n := Z.of_nat (length l) in
  if (0 <=? i) && (i <? n) then nth_error l (Z.to_nat i)
  else if (- n <=? i) && (i <? 0) then nth_error l (Z.to_nat (i + n))
  else None.

(** [enumerate(l, start)] *)
Fixpoint enumerate {A} (l : list A) (start : Z) : list (Z * A) :=
  match l with
  | [] => []
  | a :: l' => (start, a) :: enumerate l' (start + 1)
  end.

(** [sorted(l, key=key)] with string keys. Python's sort is stable, and
    the stable sorted arrangement of a list is unique, so any stable sort
    computes it; this one inserts each element before the first one whose
    key is not smaller. *)
Section Sorted.
Context {A : Type} (key : A -> string).

Fixpoint insert_sorted (x : A) (l : list A) : list A :=
  match l with
  | [] => [x]
  | y :: l' =>
      if String.leb (key x) (key y) then x :: l
      else y :: insert_sorted x l'
  end.

Fixpoint sorted (l : list A) : list A :=
  match l with
  | [] => []
  | x :: l' => insert_sorted x (sorted l')
  end.

(** The order the sort arranges by. *)
Definition key_le (x y : A) : Prop := String.leb (key x) (key y) = true.

End Sorted.

(** The exit status of the process: 0 when the script runs to its end,
    the status of an uncaught [SystemExit], 1 for any other uncaught
    exception. *)
Definition exit_status {A} (r : exn + A) : Z :=
  match r with
  | inr _ => 0
  | inl (SystemExit c) => c
  | inl _ => 1
  end.

End py.

(** ** The [tooldb] package, as far as the script uses it *)

Module tooldb.
Import py.

(** Modelled from the spec: class [Tool] is defined in the [tooldb]
    package, outside the two files at hand. A tool record has a label, a
    shape identifier and a mapping from parameter names to values; the
    script reads and writes the mapping as [tool.params]. *)
Record Tool : Type := {
  tool_label : string;
  tool_shape : string;
  params : gmap string string
}.

(** Modelled from the spec: creating a tool record validates that the
    label is non-empty and fails with [ValidationError] otherwise. The
    script calls the constructor as [Tool(label, shape)] and fills the
    parameters in afterwards, so the record starts without parameters. *)
Definition Tool_create (label shape : string) : exn + Tool :=
  if String.eqb label "" then inl ValidationError
  else inr {| tool_label := label; tool_shape := shape; params := ∅ |}.

(** Modelled from the spec: class [Library] is defined in the [tooldb]
    package as well. A library record is a labeled collection of tools. *)
Record LibraryRecord : Type := {
  library_label : string;
  library_tools : list Tool
}.

(** [tool.params[propname] = val] *)
Definition set_param (tool : Tool) (propname val : string) : Tool :=
  {| tool_label := tool_label tool;
     tool_shape := tool_shape tool;
     params := <[propname := val]> (params tool) |}.

(** One element of what [get_properties_from_shape] returns: the tuple
    [(group, propname, value, unit, enum)], where [enum] is the list of
    allowed values or [None]. Values are read as strings. *)
Record Property : Set := {
  group : string;
  propname : string;
  value : string;
  unit_ : string;
  enum : option (list string)
}.

(** Truth value of [enum]: [None] and the empty list are false. *)
Definition enum_given (e : option (list string)) : bool :=
  match e with
  | Some (_ :: _) => true
  | _ => false
  end.

Definition enum_values (e : option (list string)) : list string :=
  match e with
  | Some l => l
  | None => []
  end.

End tooldb.

(** ** [scripts/tooldb-manager.py] *)

Module tooldb_manager.
Import py tooldb.
Local Open Scope py_scope.

Definition dquote : string := String (ascii_of_nat 34) "".

(** *** [select_library] *)

Section SelectLibrary.
(** What [int] returns on a line that is not plain (see [int_of_str]). *)
Variable int_elsewhere : string -> option Z.

(** Class [Library] belongs to the [tooldb] package; the script only
    reads [lib.label]. *)
Context {Library : Type} (label : Library -> string).

Definition is_default (lib : Library) : bool :=
  String.eqb (label lib) "Default".

(** The [for n, lib in libraries:] loop: it prints one numbered line
    per library and leaves in [default] the number of the last library
    labeled [Default], if any. *)
Fixpoint print_libraries (libraries : list (Z * Library))
    (default : option Z) : M (option Z) :=
  match libraries with
  | [] => ret default
  | (n, lib) :: rest =>
      let default := if is_default lib then Some n else default in
      do print (str_of_int n ++ ") " ++ label lib
                ++ (if is_default lib then "*" else "")) then
      print_libraries rest default
  end.

(** What that loop writes and what it leaves in [default], as plain
    functions of the numbered list. *)
Definition menu_line (entry : Z * Library) : string :=
  (str_of_int (fst entry) ++ ") " ++ label (snd entry)
     ++ (if is_default (snd entry) then "*" else "")) ++ newline.

Definition menu (libraries : list (Z * Library)) : list string :=
  map menu_line libraries.

Fixpoint last_default (libraries : list (Z * Library))
    (default : option Z) : option Z :=
  match libraries with
  | [] => default
  | (n, lib) :: rest =>
      last_default rest (if is_default lib then Some n else default)
  end.

(** [int(input(...) or 1)]: an empty line stands for the integer 1. *)
Definition selection_of_line (line : string) : option Z :=
  if String.eqb line "" then Some 1 else int_of_str int_elsewhere line.

(** One pass through the body of the [while True:] loop. *)
Definition choose (libraries : list (Z * Library)) (line : string)
    : step Library :=
  match selection_of_line line with
  | None => Continue
  | Some selection =>
      match getitem libraries (selection - 1) with
      | Some (_, lib) => Break lib
      | None => Raise IndexError
      end
  end.

Definition select_prompt (default : option Z) : string :=
  "Please select the library number [" ++ str_of_optional_int default ++ "]".

Definition select_library (libraries : list Library) : M Library :=
  match libraries with
  | [lib] => ret lib
  | _ =>
      let libraries := enumerate (sorted label libraries) 1 in
      let* default := print_libraries libraries None in
      while_input (select_prompt default) (choose libraries)
  end.
(** The world once the menu and one prompt are written and one line is
    read, [rest] being the lines that remain. *)
Definition asked_once (libraries : list Library) (w : world)
    (rest : list string) : world :=
  let L := enumerate (sorted label libraries) 1 in
  {| stdin := rest;
     stdout := (stdout w ++ menu L
                  ++ [select_prompt (last_default L None)])%list;
     stderr := stderr w; store_log := store_log w |}.

End SelectLibrary.

(** *** [create_tool] *)

Section CreateTool.
(** The constructor [Tool(label, shape)] and the two functions of
    [tooldb.shape]. *)
Variable new_Tool : string -> string -> exn + Tool.
Variable get_shape_file_from_shape : string -> exn + string.
Variable get_properties_from_shape : string -> exn + list Property.

Definition enum_msg (p : Property) : string :=
  if enum_given (enum p)
  then "Allowed values: " ++ join ", " (enum_values (enum p))
  else "".

Definition msg (p : Property) : string :=
  group p ++ "/" ++ propname p ++ " Unit is " ++ unit_ p ++ ". "
    ++ enum_msg p ++ " [" ++ value p ++ "]: ".

(** One pass through the inner [while True:] loop: an empty line takes
    the default; a value outside a given enumeration asks again. *)
Definition accept (p : Property) (line : string) : step string :=
  let val := if String.eqb line "" then value p else line in
  if enum_given (enum p) && negb (contains (enum_values (enum p)) val)
  then Continue
  else Break val.

(** The [for group, propname, value, unit, enum in properties:] loop. *)
Fixpoint ask_parameters (properties : list Property) (tool : Tool)
    : M Tool :=
  match properties with
  | [] => ret tool
  | p :: rest =>
      let* val := while_input (msg p) (accept p) in
      ask_parameters rest (set_param tool (propname p) val)
  end.

(** The assignments of that loop, for the values chosen. *)
Fixpoint assign (chosen : list (Property * string)) (tool : Tool) : Tool :=
  match chosen with
  | [] => tool
  | (p, val) :: rest => assign rest (set_param tool (propname p) val)
  end.

(** A value passes the check of the inner loop for a property. *)
Definition accepted (p : Property) (val : string) : Prop :=
  enum_given (enum p) = true -> In val (enum_values (enum p)).

Definition create_tool (shape : string) : M Tool :=
  let* shape_file := lift (get_shape_file_from_shape shape) in
  let* properties :=
    match get_properties_from_shape shape_file with
    | inl ImportError =>
        do stderr_write
             ("error: FreeCAD Python module not found."
              ++ " Make sure it is installed and in your PYTHONPATH") then
        raise (SystemExit 1)
    | r => lift r
    end in
  let* label := input "Please enter a tool name (label): " in
  let* tool := lift (new_Tool label shape) in
  do print "Please enter the tool parameters (enter accepts default)." then
  ask_parameters properties tool.
End CreateTool.

(** The value a line typed at the prompt of a property stands for:
    [input(msg) or value]. *)
Definition answer (p : Property) (line : string) : string :=
  if String.eqb line "" then value p else line.

(** The values the lines stand for, property by property. *)
Definition answers (props : list Property) (lines : list string)
    : list string :=
  map (fun pl => answer (fst pl) (snd pl)) (combine props lines).

(** What [create_tool] writes before the first parameter prompt. *)
Definition create_tool_header : list string :=
  ["Please enter a tool name (label): ";
   "Please enter the tool parameters (enter accepts default)." ++ newline].

Definition import_error_message : string :=
  "error: FreeCAD Python module not found."
    ++ " Make sure it is installed and in your PYTHONPATH".

(** *** The command line and the dispatch *)

Inductive CreateObject : Set :=
| object_tool (shape : string)
| object_library.

(** The parsed arguments: [args.command] with the attributes its
    sub-parser defines; [None] when no sub-command was given. *)
Inductive Command : Set :=
| command_ls (objects : list string)
| command_export (output_format output : string)
| command_create (object : option CreateObject).

Record Args : Set := {
  format : string;
  name : string;
  command : option Command
}.

(** What the [tooldb] package provides to the script: the library
    class and the tool database with their operations, the tool
    constructor and the two functions of [tooldb.shape]; with them,
    [parser.prog] and the usage text of the parser. [deserialize] stands
    for building the serializer and [db.deserialize(serializer)] on a
    fresh [ToolDB()]; [serialize] and [serialize_library] give the
    exception raised by [db.serialize(s)] and [library.serialize(s)], if
    any; [add_tool] gives the database and the library as [db.add_tool]
    leaves them. [python_int_elsewhere] is what [int] of the interpreter
    returns on a line that is not plain (see [int_of_str]). *)
Record Package (Library ToolDB : Type) : Type := {
  label : Library -> string;
  new_Library : exn + Library;
  str_Library : Library -> string;
  str_Tool : Tool -> string;
  deserialize : Serializer -> exn + ToolDB;
  serialize : ToolDB -> Serializer -> option exn;
  serialize_library : Library -> Serializer -> option exn;
  libraries_values : ToolDB -> list Library;
  tools_values : ToolDB -> list Tool;
  get_libraries : ToolDB -> list Library;
  dump : ToolDB -> list string;
  add_tool : ToolDB -> Tool -> Library -> exn + ToolDB * Library;
  new_Tool : string -> string -> exn + Tool;
  get_shape_file_from_shape : string -> exn + string;
  get_properties_from_shape : string -> exn + list Property;
  prog : string;
  usage : string;
  python_int_elsewhere : string -> option Z
}.
Arguments label {Library ToolDB} _ _.
Arguments new_Library {Library ToolDB} _.
Arguments str_Library {Library ToolDB} _ _.
Arguments str_Tool {Library ToolDB} _ _.
Arguments deserialize {Library ToolDB} _ _.
Arguments serialize {Library ToolDB} _ _ _.
Arguments serialize_library {Library ToolDB} _ _ _.
Arguments libraries_values {Library ToolDB} _ _.
Arguments tools_values {Library ToolDB} _ _.
Arguments get_libraries {Library ToolDB} _ _.
Arguments dump {Library ToolDB} _ _.
Arguments add_tool {Library ToolDB} _ _ _ _.
Arguments new_Tool {Library ToolDB} _ _ _.
Arguments get_shape_file_from_shape {Library ToolDB} _ _.
Arguments get_properties_from_shape {Library ToolDB} _ _.
Arguments prog {Library ToolDB} _.
Arguments usage {Library ToolDB} _.
Arguments python_int_elsewhere {Library ToolDB} _ _.

Section Main.
Context {Library ToolDB : Type} (pkg : Package Library ToolDB).

(** [parser.error(message)]: usage and message on standard error,
    then exit with status 2. *)
Definition parser_error {A} (message : string) : M A :=
  do stderr_write (usage pkg) then
  do stderr_write (prog pkg ++ ": error: " ++ message ++ newline) then
  raise (SystemExit 2).

Definition of_failure (r : option exn) : M unit :=
  match r with
  | Some e => raise e
  | None => ret tt
  end.

Definition db_deserialize (s : Serializer) : M ToolDB :=
  do log_event (LoadedDB s) then lift (deserialize pkg s).

Definition db_serialize (db : ToolDB) (s : Serializer) : M unit :=
  do log_event (SavedDB s) then of_failure (serialize pkg db s).

Definition library_serialize (lib : Library) (s : Serializer) : M unit :=
  do log_event (SavedLibrary (label pkg lib) s) then
  of_failure (serialize_library pkg lib s).

Fixpoint print_all (lines : list string) : M unit :=
  match lines with
  | [] => ret tt
  | l :: rest => do print l then print_all rest
  end.

(** The [for obj in args.objects:] loop of the [ls] command. In its
    last branch the message is built from [args.object], an attribute
    the [ls] sub-parser does not define. *)
Fixpoint ls_objects (db : ToolDB) (objects : list string) : M unit :=
  match objects with
  | [] => ret tt
  | obj :: rest =>
      do (if String.eqb obj "libraries"
          then print_all (map (str_Library pkg) (libraries_values pkg db))
          else if String.eqb obj "tools"
          then print_all (map (str_Tool pkg) (tools_values pkg db))
          else if String.eqb obj "all" || String.eqb obj ""
          then print_all (dump pkg db)
          else raise AttributeError) then
      ls_objects db rest
  end.

(** The script from [args = parser.parse_args()] on. *)
Definition main (args : Args) : M unit :=
  let serializer :=
    {| ser_format := format args; ser_name := name args |} in
  let* db := db_deserialize serializer in
  match command args with
  | Some (command_ls objects) => ls_objects db objects
  | Some (command_export output_format output) =>
      do print ("Exporting as " ++ output_format) then
      db_serialize db {| ser_format := output_format; ser_name := output |}
  | Some (command_create object) =>
      let* db :=
        match object with
        | Some (object_tool shape) =>
            let* library :=
              select_library (python_int_elsewhere pkg) (label pkg)
                (get_libraries pkg db) in
            do print ("Tool will be added to library " ++ dquote
                      ++ label pkg library ++ dquote ++ ".") then
            let* tool :=
              create_tool (new_Tool pkg) (get_shape_file_from_shape pkg)
                (get_properties_from_shape pkg) shape in
            let* added := lift (add_tool pkg db tool library) in
            do library_serialize (snd added) serializer then
            ret (fst added)
        | Some object_library =>
            let* tool := lift (new_Library pkg) in
            parser_error "sorry, not yet implemented"
        | None => parser_error "requested unsupported object: None"
        end in
      db_serialize db serializer
  | None => print "no command given, nothing to do"
  end.
(** The serializer the script builds from the common arguments. *)
Definition serializer_of (args : Args) : Serializer :=
  {| ser_format := format args; ser_name := name args |}.

(** The lines [ls] prints for one of its objects, and what that puts on
    standard output. *)
Definition ls_lines (db : ToolDB) (obj : string) : list string :=
  if String.eqb obj "libraries"
  then map (str_Library pkg) (libraries_values pkg db)
  else if String.eqb obj "tools"
  then map (str_Tool pkg) (tools_values pkg db)
  else if String.eqb obj "all" || String.eqb obj ""
  then dump pkg db
  else [].

Definition ls_output (db : ToolDB) (obj : string) : list string :=
  map (fun line => line ++ newline) (ls_lines db obj).

(** The objects the [ls] sub-parser admits. *)
Definition ls_choices : list string := ["all"; "libraries"; "tools"].

End Main.

(** An interpreter for the scenarios: [int] rejects every line that is
    not plain. *)
Definition reject_elsewhere : string -> option Z := fun _ => None.

(** A library with the given label and no tools, for the scenarios. *)
Definition library (l : string) : LibraryRecord :=
  {| library_label := l; library_tools := [] |}.

(** A shape description for the scenarios: a diameter without
    enumeration, a material with one, and a coating whose default value
    is not among the allowed ones. *)
Definition endmill_properties : list Property :=
  [ {| group := "Shape"; propname := "Diameter"; value := "6 mm";
       unit_ := "mm"; enum := None |};
    {| group := "Attributes"; propname := "Material"; value := "HSS";
       unit_ := ""; enum := Some ["HSS"; "Carbide"] |};
    {| group := "Attributes"; propname := "Coating"; value := "unknown";
       unit_ := ""; enum := Some ["None"; "TiN"; "TiAlN"] |} ].

(** The three properties of the sample shape, one by one. *)
Definition diameter_property : Property :=
  {| group := "Shape"; propname := "Diameter"; value := "6 mm";
     unit_ := "mm"; enum := None |}.

Definition material_property : Property :=
  {| group := "Attributes"; propname := "Material"; value := "HSS";
     unit_ := ""; enum := Some ["HSS"; "Carbide"] |}.

Definition coating_property : Property :=
  {| group := "Attributes"; propname := "Coating"; value := "unknown";
     unit_ := ""; enum := Some ["None"; "TiN"; "TiAlN"] |}.

(** A property list in which a name occurs twice: the material with its
    enumeration, then a property of the same name without one. *)
Definition repeated_name_properties : list Property :=
  [ material_property;
    {| group := "Notes"; propname := "Material"; value := "";
       unit_ := ""; enum := None |} ].

Definition sample_shape_file (shape : string) : exn + string :=
  inr (shape ++ ".fcstd").

Definition sample_properties (shape_file : string) : exn + list Property :=
  if String.eqb shape_file "endmill.fcstd" then inr endmill_properties
  else inl (OtherError "FileNotFoundError").

(** A package for the scenarios: the database is the list of its
    libraries, it loads with the single library Default, and nothing
    fails. *)
Definition sample_package : Package LibraryRecord (list LibraryRecord) := {|
  label := library_label;
  new_Library := inr (library "");
  str_Library := library_label;
  str_Tool := tool_label;
  deserialize := fun _ => inr [library "Default"];
  serialize := fun _ _ => None;
  serialize_library := fun _ _ => None;
  libraries_values := fun db => db;
  tools_values := fun db => concat (map library_tools db);
  get_libraries := fun db => db;
  dump := fun db => map library_label db;
  add_tool := fun db tool lib =>
    let lib' := {| library_label := library_label lib;
                   library_tools := library_tools lib ++ [tool] |} in
    inr (map (fun l => if String.eqb (library_label l) (library_label lib)
                       then lib' else l) db, lib');
  new_Tool := Tool_create;
  get_shape_file_from_shape := sample_shape_file;
  get_properties_from_shape := sample_properties;
  prog := "tooldb-manager.py";
  usage := "usage: tooldb-manager.py [-h] [-f FORMAT] name COMMAND ..."
             ++ newline;
  python_int_elsewhere := reject_elsewhere
|}.

(** [create library] on the command line, as parsed. *)
Definition create_library_args (fmt db_name : string) : Args :=
  {| format := fmt; name := db_name;
     command := Some (command_create (Some object_library)) |}.

(** A package that differs from [pkg] in how the database loads. *)
Definition with_deserialize {Library ToolDB : Type}
    (pkg : Package Library ToolDB) (f : Serializer -> exn + ToolDB)
    : Package Library ToolDB :=
  {| label := label pkg;
     new_Library := new_Library pkg;
     str_Library := str_Library pkg;
     str_Tool := str_Tool pkg;
     deserialize := f;
     serialize := serialize pkg;
     serialize_library := serialize_library pkg;
     libraries_values := libraries_values pkg;
     tools_values := tools_values pkg;
     get_libraries := get_libraries pkg;
     dump := dump pkg;
     add_tool := add_tool pkg;
     new_Tool := new_Tool pkg;
     get_shape_file_from_shape := get_shape_file_from_shape pkg;
     get_properties_from_shape := get_properties_from_shape pkg;
     prog := prog pkg;
     usage := usage pkg;
     python_int_elsewhere := python_int_elsewhere pkg |}.


(** The command lines of the scenarios, as parsed. *)
Definition ls_args (fmt db_name : string) (objects : list string) : Args :=
  {| format := fmt; name := db_name; command := Some (command_ls objects) |}.

Definition export_args (fmt db_name output_format output : string) : Args :=
  {| format := fmt; name := db_name;
     command := Some (command_export output_format output) |}.

Definition create_tool_args (fmt db_name shape : string) : Args :=
  {| format := fmt; name := db_name;
     command := Some (command_create (Some (object_tool shape))) |}.

Definition create_nothing_args (fmt db_name : string) : Args :=
  {| format := fmt; name := db_name; command := Some (command_create None) |}.


(** The world a fresh process starts in, given the lines typed. *)
Definition start (lines : list string) : world :=
  {| stdin := lines; stdout := []; stderr := []; store_log := [] |}.

(** The same world with other lines left to read. *)
Definition with_stdin (lines : list string) (w : world) : world :=
  {| stdin := lines; stdout := stdout w;
     stderr := stderr w; store_log := store_log w |}.

End tooldb_manager.
(* ===================================================================== *)
(** * Part II: properties *)
(* ===================================================================== *)

(** ** The catalogue *)

Section CatalogFacts.
Import const material.

(** Case analysis over the eleven materials. *)
Lemma catalog_cases (P : Material -> Prop) :
  P Aluminium6061 -> P Aluminium7075 -> P CopperAlloy -> P Iron ->
  P ToolSteel -> P LowCarbonSteel -> P Stainless -> P Titanium ->
  P Plastic -> P Softwood -> P Hardwood ->
  forall m, In m catalog -> P m.
Proof.
  intros H1 H2 H3 H4 H5 H6 H7 H8 H9 H10 H11 m Hm.
  unfold catalog in Hm; simpl in Hm.
  repeat (destruct Hm as [<- | Hm]; [assumption |]).
  contradiction.
Qed.

Ltac by_material :=
  let m := fresh "m" in
  let Hm := fresh "Hm" in
  intros m Hm; pattern m; revert m Hm; apply catalog_cases.

Lemma chipload_divisor_positive :
  forall m, In m catalog -> forall tm, 0 < chipload_divisor m tm.
Proof. by_material; intros []; reflexivity. Qed.

(** C2 as stated fails: the carbide table of Aluminium6061 gives SLOTTING
    the explicit range (425, 575). *)
Lemma slotting_sentinel_everywhere_fails :
  ~ (forall m, In m catalog -> forall tm,
       dict_get (speeds m tm) SLOTTING = Some (None, None)).
Proof.
  intros H.
  specialize (H Aluminium6061 (or_introl eq_refl) CARBIDE).
  discriminate H.
Qed.

(** C2, as the catalogue has it: for a material of the catalogue the
    SLOTTING entry of a speed table is the sentinel [(None, None)] exactly
    when the table is the HSS one or the material is Plastic, Softwood or
    Hardwood; the carbide tables of the eight other materials give
    SLOTTING an explicit range. *)
Theorem slotting_sentinel_by_class :
  forall m, In m catalog -> forall tm,
    dict_get (speeds m tm) SLOTTING = Some (None, None) <->
    (tm = HSS \/ In m carbide_slotting_unspecified).
Proof.
  by_material; intros [|]; split; intros H;
    try reflexivity; try (left; reflexivity); try (right; simpl; tauto);
    try discriminate H;
    destruct H as [H | H]; try discriminate H;
    unfold carbide_slotting_unspecified in H; simpl in H;
    repeat (destruct H as [H | H]; [discriminate H |]); contradiction.
Qed.

Lemma slotting_sentinel_by_class_witness :
  In Iron catalog /\
  (dict_get (speeds Iron HSS) SLOTTING = Some (None, None) <->
   (HSS = HSS \/ In Iron carbide_slotting_unspecified)).
Proof.
  split; [simpl; tauto | apply slotting_sentinel_by_class; simpl; tauto].
Defined.

(** C4: every material of the catalogue has a MILLING entry with both
    bounds present, in its HSS table and in its carbide table. *)
Theorem milling_entry_explicit :
  forall m, In m catalog -> forall tm,
    exists lo hi, dict_get (speeds m tm) MILLING = Some (Some lo, Some hi).
Proof.
  by_material; intros [|]; eexists _, _; reflexivity.
Qed.

Lemma milling_entry_explicit_witness :
  In Titanium catalog /\
  exists lo hi, dict_get (speeds Titanium CARBIDE) MILLING = Some (Some lo, Some hi).
Proof.
  split; [simpl; tauto | apply milling_entry_explicit; simpl; tauto].
Defined.

End CatalogFacts.

(** ** The derivation *)

Section EngineFacts.
Import const material engine.
Local Open Scope R_scope.

(** Two enclosures of pi from the Machin-like series of the library,
    tight enough to round the spindle speeds below. *)
Lemma PI_above : 3.14159 < PI.
Proof.
  pose proof (PI_2_3_7_ineq 3) as [H _].
  unfold sum_f_R0, tg_alt, PI_2_3_7_tg, Ratan_seq in H.
  cbn [Nat.mul Nat.add pow INR] in H.
  lra.
Qed.

Lemma PI_below : PI < 3.141593.
Proof.
  pose proof (PI_2_3_7_ineq 4) as [_ H].
  unfold sum_f_R0, tg_alt, PI_2_3_7_tg, Ratan_seq in H.
  cbn [Nat.mul Nat.add pow INR] in H.
  lra.
Qed.

(** Enclosing [s * 1000 / (PI * d)] between two rationals. *)
Lemma spindle_speed_between (s d a b : R) :
  0 < d -> 0 <= s ->
  a * (3.141593 * d) <= s * 1000 ->
  s * 1000 <= b * (3.14159 * d) ->
  0 <= b ->
  a <= spindle_speed s d <= b.
Proof.
  intros Hd Hs Ha Hb Hb0.
  pose proof PI_above as Hlo. pose proof PI_below as Hhi.
  assert (Hpd : 0 < PI * d) by (apply Rmult_lt_0_compat; lra).
  assert (Hx : spindle_speed s d * (PI * d) = s * 1000).
  { unfold spindle_speed. field. split; lra. }
  split; apply Rmult_le_reg_r with (PI * d); try exact Hpd; rewrite Hx.
  - destruct (Rle_lt_dec a 0) as [Hneg | Hpos].
    + apply Rle_trans with 0; [| lra].
      rewrite <- (Rmult_0_l (PI * d)).
      apply Rmult_le_compat_r; lra.
    + apply Rle_trans with (a * (3.141593 * d)); [| exact Ha].
      apply Rmult_le_compat_l; [lra |].
      apply Rmult_le_compat_r; lra.
  - apply Rle_trans with (b * (3.14159 * d)); [exact Hb |].
    apply Rmult_le_compat_l; [exact Hb0 |].
    apply Rmult_le_compat_r; lra.
Qed.

Lemma approx_rpm_of_bounds (x : R) (n : Z) :
  IZR n - 1 / 2 <= x <= IZR n + 1 / 2 -> approx_rpm x n.
Proof.
  intros [Hlo Hhi]. unfold approx_rpm.
  apply Rabs_le. lra.
Qed.

Lemma not_approx_rpm_below (x : R) (n : Z) :
  x < IZR n - 1 / 2 -> ~ approx_rpm x n.
Proof.
  unfold approx_rpm. intros Hx Habs.
  unfold Rabs in Habs. destruct (Rcase_abs (x - IZR n)); lra.
Qed.

(** The two spindle speeds of the scenario, to one decimal. *)
Lemma spindle_speeds_at_6mm :
  33952.9 <= spindle_speed 640 6 <= 33953.1 /\
  45889.6 <= spindle_speed 865 6 <= 45889.8.
Proof. split; apply spindle_speed_between; lra. Qed.

(** C1 as stated fails: with the spec's formula the spindle speeds for
    640 and 865 m/min at 6 mm are about 33953.0 and 45889.7 RPM, so the
    quoted figures (33973, 45898) are not the speeds rounded to an
    integer; they are off by about 20 and 8 RPM. *)
Lemma quoted_spindle_range_is_off :
  ~ (forall ratio flutes mrr,
       exists r,
         Aluminium6061_carbide_milling_6mm ratio flutes mrr = inr r /\
         chipload_mm r = 0.075 /\
         surface_speed_range_m_per_min r = (640, 865) /\
         approx_rpm (fst (spindle_speed_range_rpm r)) 33973 /\
         approx_rpm (snd (spindle_speed_range_rpm r)) 45898).
Proof.
  intros Hall.
  destruct (Hall 1 2%nat 0) as (r & Hr & _ & _ & Hlo & _).
  unfold Aluminium6061_carbide_milling_6mm, recommend in Hr.
  cbv [surface_speed_range speeds carbide_speeds Aluminium6061 dict_get
       Operation_eqb rng] in Hr.
  injection Hr as <-. cbn [spindle_speed_range_rpm fst] in Hlo.
  revert Hlo. apply not_approx_rpm_below.
  assert (H : 0 <= spindle_speed 640 6 <= 33954).
  { apply spindle_speed_between; lra. }
  lra.
Qed.

(** C1, amended: for Aluminium6061, CARBIDE, MILLING and a 6.0 mm tool
    the recommendation has chipload 6.0/80 = 0.075 mm, surface speed
    range (640, 865) m/min, and spindle speeds [speed*1000/(pi*6.0)] per
    bound, which round to (33953, 45890) RPM. *)
Theorem recommend_Aluminium6061_carbide_milling_6mm :
  forall ratio flutes mrr,
    exists r,
      Aluminium6061_carbide_milling_6mm ratio flutes mrr = inr r /\
      chipload_mm r = 6 / 80 /\
      chipload_mm r = 0.075 /\
      surface_speed_range_m_per_min r = (640, 865) /\
      spindle_speed_range_rpm r =
        (640 * 1000 / (PI * 6), 865 * 1000 / (PI * 6)) /\
      approx_rpm (fst (spindle_speed_range_rpm r)) 33953 /\
      approx_rpm (snd (spindle_speed_range_rpm r)) 45890.
Proof.
  intros ratio flutes mrr.
  unfold Aluminium6061_carbide_milling_6mm, recommend.
  cbv [surface_speed_range speeds carbide_speeds Aluminium6061 dict_get
       Operation_eqb rng].
  eexists; split; [reflexivity |].
  cbn [chipload_mm surface_speed_range_m_per_min spindle_speed_range_rpm
       fst snd].
  unfold chipload, chipload_divisor, carbide_chipload_divisor.
  repeat split.
  - lra.
  - apply approx_rpm_of_bounds. apply spindle_speed_between; lra.
  - apply approx_rpm_of_bounds. apply spindle_speed_between; lra.
Qed.

(** C3: for a material of the catalogue, either tool-material class and
    a positive diameter, the chipload is the diameter divided by the
    material's (positive) divisor for that class, and doubling the
    diameter doubles the chipload. *)
Theorem chipload_proportional :
  forall m, In m catalog -> forall tm d, 0 < d ->
    (0 < chipload_divisor m tm)%Z /\
    chipload m tm d = d / IZR (chipload_divisor m tm) /\
    chipload m tm (2 * d) = 2 * chipload m tm d /\
    0 < chipload m tm d.
Proof.
  intros m Hm tm d Hd.
  pose proof (chipload_divisor_positive m Hm tm) as Hz.
  assert (Hr : 0 < IZR (chipload_divisor m tm)) by (apply IZR_lt; exact Hz).
  repeat split.
  - exact Hz.
  - unfold chipload. field. lra.
  - unfold chipload. apply Rdiv_lt_0_compat; assumption.
Qed.

Lemma chipload_proportional_witness :
  In Iron catalog /\ 0 < 6 /\
  chipload Iron HSS (2 * 6) = 2 * chipload Iron HSS 6.
Proof.
  assert (Hin : In Iron catalog) by (simpl; tauto).
  assert (Hd : 0 < 6) by lra.
  split; [exact Hin | split; [exact Hd |]].
  exact (proj1 (proj2 (proj2 (chipload_proportional Iron Hin HSS 6 Hd)))).
Defined.

End EngineFacts.

(** ** The runtime: order on strings, sorting, indexing, the input loop *)

Section RuntimeFacts.
Import py.

Lemma ascii_compare_refl (a : ascii) : Ascii.compare a a = Eq.
Proof. unfold Ascii.compare. apply N.compare_refl. Qed.

Lemma string_compare_refl (s : string) : String.compare s s = Eq.
Proof.
  induction s as [| c s IH]; simpl; [reflexivity |].
  rewrite ascii_compare_refl. exact IH.
Qed.

Lemma string_leb_refl (s : string) : String.leb s s = true.
Proof. unfold String.leb. rewrite string_compare_refl. reflexivity. Qed.

Lemma string_compare_lt_trans (s1 s2 s3 : string) :
  String.compare s1 s2 = Lt -> String.compare s2 s3 = Lt ->
  String.compare s1 s3 = Lt.
Proof.
  revert s2 s3.
  induction s1 as [| c1 s1 IH]; intros [| c2 s2] [| c3 s3]; simpl;
    try discriminate; try reflexivity.
  unfold Ascii.compare.
  destruct (N.compare_spec (N_of_ascii c1) (N_of_ascii c2)) as [E12 | L12 | G12];
    try discriminate;
    destruct (N.compare_spec (N_of_ascii c2) (N_of_ascii c3)) as [E23 | L23 | G23];
    try discriminate; intros H12 H23.
  - rewrite E12, E23, N.compare_refl. eapply IH; eassumption.
  - rewrite E12. apply N.compare_lt_iff in L23. rewrite L23. reflexivity.
  - rewrite <- E23. apply N.compare_lt_iff in L12. rewrite L12. reflexivity.
  - assert (L13 : (N_of_ascii c1 < N_of_ascii c3)%N) by lia.
    apply N.compare_lt_iff in L13. rewrite L13. reflexivity.
Qed.

Lemma string_leb_trans (s1 s2 s3 : string) :
  String.leb s1 s2 = true -> String.leb s2 s3 = true ->
  String.leb s1 s3 = true.
Proof.
  unfold String.leb.
  destruct (String.compare s1 s2) eqn:E12; try discriminate;
    destruct (String.compare s2 s3) eqn:E23; try discriminate; intros _ _.
  - apply String.compare_eq_iff in E12, E23. subst.
    rewrite string_compare_refl. reflexivity.
  - apply String.compare_eq_iff in E12. subst. rewrite E23. reflexivity.
  - apply String.compare_eq_iff in E23. subst. rewrite E12. reflexivity.
  - rewrite (string_compare_lt_trans _ _ _ E12 E23). reflexivity.
Qed.

Section SortedFacts.
Context {A : Type} (key : A -> string).

Lemma insert_sorted_perm (x : A) (l : list A) :
  Permutation (x :: l) (insert_sorted key x l).
Proof.
  induction l as [| y l IH]; simpl; [reflexivity |].
  destruct (String.leb (key x) (key y)); [reflexivity |].
  rewrite perm_swap. apply perm_skip. exact IH.
Qed.

Lemma sorted_perm (l : list A) : Permutation l (sorted key l).
Proof.
  induction l as [| x l IH]; simpl; [reflexivity |].
  rewrite <- insert_sorted_perm. apply perm_skip. exact IH.
Qed.

Lemma sorted_length (l : list A) : length (sorted key l) = length l.
Proof. symmetry. apply Permutation_length, sorted_perm. Qed.

Lemma sorted_In (l : list A) (x : A) : In x (sorted key l) <-> In x l.
Proof.
  split; apply Permutation_in;
    [symmetry |]; apply sorted_perm.
Qed.

Lemma insert_sorted_ordered (x : A) (l : list A) :
  StronglySorted (key_le key) l -> StronglySorted (key_le key) (insert_sorted key x l).
Proof.
  induction 1 as [| y l Hl IH Hy]; simpl.
  - constructor; constructor.
  - destruct (String.leb (key x) (key y)) eqn:E.
    + constructor; [constructor; assumption |].
      constructor; [exact E |].
      eapply List.Forall_impl; [| exact Hy].
      intros z Hz. unfold key_le in *.
      eapply string_leb_trans; eassumption.
    + constructor; [exact IH |].
      assert (Hyx : key_le key y x).
      { unfold key_le.
        destruct (String.leb_total (key x) (key y)) as [H | H];
          [congruence | exact H]. }
      rewrite List.Forall_forall in *.
      intros z Hz.
      apply (Permutation_in _ (Permutation_sym (insert_sorted_perm x l))) in Hz.
      destruct Hz as [<- | Hz]; [exact Hyx | apply Hy; exact Hz].
Qed.

Lemma sorted_ordered (l : list A) : StronglySorted (key_le key) (sorted key l).
Proof.
  induction l as [| x l IH]; simpl; [constructor |].
  apply insert_sorted_ordered. exact IH.
Qed.

(** In an ordered list the last element has the greatest key. *)
Lemma ordered_last_greatest (l : list A) (y : A) :
  StronglySorted (key_le key) l ->
  nth_error l (length l - 1) = Some y ->
  forall x, In x l -> key_le key x y.
Proof.
  induction 1 as [| z l Hl IH Hz]; simpl; intros Hy x Hx;
    [contradiction |].
  destruct l as [| z' l'].
  - simpl in Hy. injection Hy as <-.
    destruct Hx as [<- | []]. apply string_leb_refl.
  - assert (Hy' : nth_error (z' :: l') (length (z' :: l') - 1) = Some y).
    { simpl in *. rewrite Nat.sub_0_r in *. exact Hy. }
    destruct Hx as [<- | Hx].
    + rewrite List.Forall_forall in Hz. apply Hz.
      eapply nth_error_In. exact Hy'.
    + apply IH; assumption.
Qed.
End SortedFacts.

Lemma enumerate_length {A} (l : list A) (start : Z) :
  length (enumerate l start) = length l.
Proof.
  revert start. induction l as [| a l IH]; intros start; simpl;
    [reflexivity | rewrite IH; reflexivity].
Qed.

Lemma enumerate_nth_error {A} (l : list A) (start : Z) (i : nat) :
  nth_error (enumerate l start) i =
  option_map (fun a => (start + Z.of_nat i, a)) (nth_error l i).
Proof.
  revert start i. induction l as [| a l IH]; intros start [| i]; simpl;
    try reflexivity.
  - rewrite Z.add_0_r. reflexivity.
  - rewrite IH. destruct (nth_error l i); simpl; [| reflexivity].
    do 2 f_equal. lia.
Qed.

(** The loop leaves with a value only through a [Break] of its body on
    one of the lines read. *)
Lemma ask_until_break {A} (prompt : string) (body : string -> step A)
    (lines out : list string) (a : A) (rest : list string * list string) :
  ask_until prompt body lines out = (inr a, rest) ->
  exists line, In line lines /\ body line = Break a.
Proof.
  revert out. induction lines as [| line lines IH]; intros out; simpl.
  - discriminate.
  - destruct (body line) eqn:E; intros H.
    + destruct (IH _ H) as (l & Hl & Hb). exists l. split; [right |]; assumption.
    + injection H as <- _. exists line. split; [left; reflexivity | exact E].
    + discriminate.
Qed.

(** [int] on a few plain lines: white space and one sign are accepted
    around the digits and single underscores between them; the bytes 28
    to 31 are no white space in an ASCII string, so a line that starts
    with one is rejected. *)
Example int_of_str_plain_lines (int_elsewhere : string -> option Z) :
  int_of_str int_elsewhere " 12 " = Some 12 /\
  int_of_str int_elsewhere "-0" = Some 0 /\
  int_of_str int_elsewhere "007" = Some 7 /\
  int_of_str int_elsewhere "1_000" = Some 1000 /\
  int_of_str int_elsewhere "+ 1" = None /\
  int_of_str int_elsewhere "1__0" = None /\
  int_of_str int_elsewhere "2.0" = None /\
  int_of_str int_elsewhere "" = None /\
  int_of_str int_elsewhere (String (ascii_of_nat 28) "2") = None.
Proof. repeat split. Qed.

(** A line with a character outside ASCII, here the digit U+0662 in
    UTF-8, is left to the interpreter. *)
Example int_of_str_outside_ascii (int_elsewhere : string -> option Z) :
  let line := String (ascii_of_nat 217) (String (ascii_of_nat 162) "") in
  int_of_str int_elsewhere line = int_elsewhere line.
Proof. reflexivity. Qed.

End RuntimeFacts.

(** ** [select_library] *)

Section SelectLibraryFacts.
Import py tooldb tooldb_manager.
Variable int_elsewhere : string -> option Z.
Context {Library : Type} (label : Library -> string).

(** The numbered list the menu is printed from. *)
Local Abbreviation numbered libs := (enumerate (sorted label libs) 1).

Lemma ask_until_out {A} (prompt : string) (body : string -> step A)
    (lines out : list string) :
  ask_until prompt body lines out =
  (fst (ask_until prompt body lines []),
   (fst (snd (ask_until prompt body lines [])),
    (out ++ snd (snd (ask_until prompt body lines [])))%list)).
Proof.
  revert out. induction lines as [| line lines IH]; intros out; simpl.
  - reflexivity.
  - destruct (body line); try reflexivity.
    rewrite (IH (out ++ [prompt])%list), (IH [prompt]).
    simpl. rewrite <- app_assoc. reflexivity.
Qed.

Lemma print_libraries_run (l : list (Z * Library)) (d : option Z) (w : world) :
  print_libraries label l d w =
  (inr (last_default label l d),
   {| stdin := stdin w; stdout := (stdout w ++ menu label l)%list;
      stderr := stderr w; store_log := store_log w |}).
Proof.
  revert d w. induction l as [| [n lib] l IH]; intros d w; simpl.
  - unfold ret. rewrite app_nil_r. destruct w; reflexivity.
  - unfold bind, print at 1. rewrite IH. simpl.
    rewrite <- app_assoc. reflexivity.
Qed.

(** With no library or with several, the menu is printed and the loop
    runs on the lines of standard input. *)
Lemma select_library_run (libs : list Library) (w : world) :
  length libs <> 1%nat ->
  select_library int_elsewhere label libs w =
  let L := numbered libs in
  let asked :=
    ask_until (select_prompt (last_default label L None)) (choose int_elsewhere L)
      (stdin w) (stdout w ++ menu label L)%list in
  (fst asked,
   {| stdin := fst (snd asked); stdout := snd (snd asked);
      stderr := stderr w; store_log := store_log w |}).
Proof.
  intros Hlen.
  assert (E : select_library int_elsewhere label libs w =
              bind (print_libraries label (numbered libs) None)
                   (fun default =>
                      while_input (select_prompt default)
                        (choose int_elsewhere (numbered libs))) w).
  { destruct libs as [| a [| b libs]]; try reflexivity.
    exfalso. apply Hlen. reflexivity. }
  rewrite E. unfold bind. rewrite print_libraries_run.
  unfold while_input. simpl.
  destruct (ask_until _ _ _ _) as [r [rest out]]. reflexivity.
Qed.

(** The first line typed decides, unless the body says [continue]. *)
Lemma select_library_first_line (libs : list Library) (w : world)
    (line : string) (rest : list string) :
  length libs <> 1%nat -> stdin w = line :: rest ->
  let L := numbered libs in
  let after :=
    {| stdin := rest;
       stdout := (stdout w ++ menu label L
                    ++ [select_prompt (last_default label L None)])%list;
       stderr := stderr w; store_log := store_log w |} in
  match choose int_elsewhere L line with
  | Break lib => select_library int_elsewhere label libs w = (inr lib, after)
  | Raise e => select_library int_elsewhere label libs w = (inl e, after)
  | Continue =>
      fst (select_library int_elsewhere label libs w)
        = fst (select_library int_elsewhere label libs (with_stdin rest w)) /\
      stdin (snd (select_library int_elsewhere label libs w))
        = stdin (snd (select_library int_elsewhere label libs (with_stdin rest w))) /\
      exists before later,
        stdout (snd (select_library int_elsewhere label libs (with_stdin rest w)))
          = (before ++ later)%list /\
        stdout (snd (select_library int_elsewhere label libs w))
          = (before ++ select_prompt (last_default label L None) :: later)%list
  end.
Proof.
  intros Hlen Hin. cbv zeta.
  rewrite !(select_library_run libs) by exact Hlen.
  cbv zeta. rewrite Hin. simpl.
  destruct (choose int_elsewhere (numbered libs) line) eqn:E.
  - simpl.
    set (p := select_prompt _). set (out := (stdout w ++ _)%list).
    rewrite (ask_until_out p _ rest (out ++ [p])%list).
    rewrite (ask_until_out p _ rest out).
    simpl. repeat split.
    exists out, (snd (snd (ask_until p (choose int_elsewhere (numbered libs)) rest []))).
    split; [reflexivity |].
    rewrite <- app_assoc. reflexivity.
  - simpl. rewrite <- app_assoc. reflexivity.
  - simpl. rewrite <- app_assoc. reflexivity.
Qed.

(** [choose] says [continue] exactly on a non-empty line that is not an
    integer. *)
Lemma choose_continue (L : list (Z * Library)) (line : string) :
  choose int_elsewhere L line = Continue <-> line <> "" /\ int_of_str int_elsewhere line = None.
Proof.
  unfold choose, selection_of_line.
  destruct (String.eqb_spec line "") as [-> | Hne].
  - split; [| intros [H _]; contradiction].
    destruct (getitem L (1 - 1)) as [[? ?] |]; discriminate.
  - destruct (int_of_str int_elsewhere line) as [k |].
    + split; [| intros [_ H]; discriminate].
      destruct (getitem L (k - 1)) as [[? ?] |]; discriminate.
    + split; [intros _; split; [exact Hne | reflexivity] | reflexivity].
Qed.

Lemma numbered_length (libs : list Library) :
  length (numbered libs) = length libs.
Proof. rewrite enumerate_length. apply sorted_length. Qed.

(** Index [0 - 1] reaches the last entry of the sorted list. *)
Lemma getitem_minus_one (libs : list Library) :
  (2 <= length libs)%nat ->
  exists n lib,
    getitem (numbered libs) (0 - 1) = Some (n, lib) /\
    nth_error (sorted label libs) (length (sorted label libs) - 1) = Some lib.
Proof.
  intros Hlen. unfold getitem. rewrite numbered_length.
  replace (0 <=? 0 - 1) with false by reflexivity. simpl andb.
  replace ((- Z.of_nat (length libs) <=? 0 - 1) && (0 - 1 <? 0)) with true
    by (symmetry; apply andb_true_iff; split;
        [apply Z.leb_le; lia | reflexivity]).
  replace (Z.to_nat (0 - 1 + Z.of_nat (length libs)))
    with (length (sorted label libs) - 1)%nat
    by (rewrite sorted_length; lia).
  rewrite enumerate_nth_error.
  destruct (nth_error (sorted label libs) (length (sorted label libs) - 1))
    as [lib |] eqn:E.
  - simpl. eexists _, lib. split; reflexivity.
  - apply nth_error_None in E. rewrite sorted_length in E. lia.
Qed.

Lemma getitem_beyond (libs : list Library) (k : Z) :
  Z.of_nat (length libs) < k -> getitem (numbered libs) (k - 1) = None.
Proof.
  intros Hk. unfold getitem. rewrite numbered_length.
  replace (k - 1 <? Z.of_nat (length libs)) with false
    by (symmetry; apply Z.ltb_ge; lia).
  replace (k - 1 <? 0) with false by (symmetry; apply Z.ltb_ge; lia).
  rewrite !andb_false_r. reflexivity.
Qed.

End SelectLibraryFacts.

Section SelectLibraryClaims.
Import py tooldb tooldb_manager.

(** C5 as stated fails: for the libraries labeled Default and Shop B the
    menu does not show Shop B as number 1 and Default as number 2, and
    entering 2 does not return the Default library. *)
Lemma select_library_Default_ShopB_not_as_stated :
  ~ (exists (int_elsewhere : string -> option Z) (w' : world),
       select_library int_elsewhere library_label
         [library "Default"; library "Shop B"]
         (start ["2"]) = (inr (library "Default"), w') /\
       exists more,
         stdout w' = ("1) Shop B" ++ newline)
                       :: ("2) Default*" ++ newline) :: more).
Proof.
  intros (int_elsewhere & w' & Hrun & _).
  vm_compute in Hrun. discriminate Hrun.
Qed.

(** C5, amended: given the two libraries labeled Default and Shop B, in
    either order, the menu is sorted by label: it shows Default, marked
    with an asterisk, as number 1 and Shop B as number 2, and the prompt
    shows 1 as the default; entering 1 returns the library labeled
    Default and entering 2 the library labeled Shop B. *)
Theorem select_library_Default_ShopB :
  forall (int_elsewhere : string -> option Z) (Library : Type)
         (label : Library -> string) (d s : Library)
         (libs : list Library) (rest : list string),
    label d = "Default" -> label s = "Shop B" ->
    libs = [d; s] \/ libs = [s; d] ->
    let shown :=
      ["1) Default*" ++ newline; "2) Shop B" ++ newline;
       "Please select the library number [1]"] in
    select_library int_elsewhere label libs (start ("1" :: rest))
      = (inr d, {| stdin := rest; stdout := shown;
                   stderr := []; store_log := [] |}) /\
    select_library int_elsewhere label libs (start ("2" :: rest))
      = (inr s, {| stdin := rest; stdout := shown;
                   stderr := []; store_log := [] |}).
Proof.
  intros int_elsewhere Library label d s libs rest Hd Hs Hlibs shown.
  assert (Hsorted : enumerate (sorted label libs) 1 = [(1, d); (2, s)]).
  { destruct Hlibs as [-> | ->]; simpl; rewrite Hd, Hs; reflexivity. }
  assert (Hlen : length libs <> 1%nat) by (destruct Hlibs as [-> | ->]; discriminate).
  assert (Hmenu : menu label [(1, d); (2, s)]
                  = ["1) Default*" ++ newline; "2) Shop B" ++ newline]).
  { unfold menu, menu_line, is_default. simpl. rewrite Hd, Hs. reflexivity. }
  assert (Hdef : last_default label [(1, d); (2, s)] None = Some 1).
  { unfold is_default. simpl. unfold is_default. rewrite Hd, Hs. reflexivity. }
  split.
  - pose proof (select_library_first_line int_elsewhere label libs
                  (start ("1" :: rest)) "1" rest Hlen eq_refl) as H.
    cbv zeta in H. rewrite Hsorted, Hmenu, Hdef in H. exact H.
  - pose proof (select_library_first_line int_elsewhere label libs
                  (start ("2" :: rest)) "2" rest Hlen eq_refl) as H.
    cbv zeta in H. rewrite Hsorted, Hmenu, Hdef in H. exact H.
Qed.

Lemma select_library_Default_ShopB_witness :
  library_label (library "Default") = "Default" /\
  library_label (library "Shop B") = "Shop B" /\
  fst (select_library reject_elsewhere library_label [library "Default"; library "Shop B"]
         (start ["2"])) = inr (library "Shop B").
Proof.
  split; [reflexivity | split; [reflexivity |]].
  rewrite (proj2 (select_library_Default_ShopB reject_elsewhere LibraryRecord library_label
                    (library "Default") (library "Shop B")
                    [library "Default"; library "Shop B"] []
                    eq_refl eq_refl (or_introl eq_refl))).
  reflexivity.
Defined.

(** With no library or several, the empty line selects number 1, the
    first library in the order of the labels, whatever the prompt shows. *)
Lemma select_library_empty_line (int_elsewhere : string -> option Z) {Library : Type}
    (label : Library -> string)
    (libs : list Library) (w : world) (rest : list string)
    (first : Library) (others : list Library) :
  length libs <> 1%nat -> stdin w = "" :: rest ->
  sorted label libs = first :: others ->
  fst (select_library int_elsewhere label libs w) = inr first.
Proof.
  intros Hlen Hin Hsorted.
  pose proof (select_library_first_line int_elsewhere label libs w "" rest Hlen Hin) as H.
  cbv zeta in H. rewrite Hsorted in H.
  unfold choose, selection_of_line in H. simpl in H.
  rewrite H. reflexivity.
Qed.

(** C6, the code at the failing input: with the libraries labeled Alpha
    and Default the prompt shows 2, the number of Default, as the
    default, yet the empty line is read as 1 and returns Alpha. *)
Theorem select_library_empty_line_takes_first :
  forall int_elsewhere : string -> option Z,
    select_library int_elsewhere library_label
      [library "Alpha"; library "Default"] (start [""])
    = (inr (library "Alpha"),
       {| stdin := [];
          stdout := ["1) Alpha" ++ newline; "2) Default*" ++ newline;
                     "Please select the library number [2]"];
          stderr := []; store_log := [] |}).
Proof. intros int_elsewhere. vm_compute. reflexivity. Qed.

(** C10: with two or more libraries the index entered is not checked
    against the range. Entering 0 returns the library that is last in the
    order of the labels; entering an integer greater than the number of
    libraries raises [IndexError]; an integer, whatever its value, is
    never asked again (one line is read, one prompt written); a line is
    asked again exactly when it is non-empty and not an integer, and then
    the result is that of the lines that follow. An integer is a line
    [int] accepts, whatever the interpreter makes of the lines that are
    not plain. *)
Theorem select_library_index_not_range_checked :
  forall (int_elsewhere : string -> option Z) (Library : Type)
         (label : Library -> string)
         (libs : list Library) (w : world) (line : string)
         (rest : list string),
    (2 <= length libs)%nat -> stdin w = line :: rest ->
    let L := enumerate (sorted label libs) 1 in
    let after :=
      {| stdin := rest;
         stdout := (stdout w ++ menu label L
                      ++ [select_prompt (last_default label L None)])%list;
         stderr := stderr w; store_log := store_log w |} in
    let run := select_library int_elsewhere label libs w in
    (int_of_str int_elsewhere line = Some 0 ->
       exists lib,
         run = (inr lib, after) /\ In lib libs /\
         forall other, In other libs ->
           String.leb (label other) (label lib) = true) /\
    (forall k, int_of_str int_elsewhere line = Some k -> Z.of_nat (length libs) < k ->
       run = (inl IndexError, after)) /\
    (forall k, int_of_str int_elsewhere line = Some k -> snd run = after) /\
    (choose int_elsewhere L line = Continue <-> line <> "" /\ int_of_str int_elsewhere line = None) /\
    (line <> "" -> int_of_str int_elsewhere line = None ->
       fst run = fst (select_library int_elsewhere label libs (with_stdin rest w)) /\
       stdin (snd run)
         = stdin (snd (select_library int_elsewhere label libs (with_stdin rest w))) /\
       exists before later,
         stdout (snd (select_library int_elsewhere label libs (with_stdin rest w)))
           = (before ++ later)%list /\
         stdout (snd run)
           = (before ++ select_prompt (last_default label L None) :: later)%list).
Proof.
  intros int_elsewhere Library label libs w line rest Hlen Hin L after run.
  assert (Hlen1 : length libs <> 1%nat) by lia.
  pose proof (select_library_first_line int_elsewhere label libs w line rest Hlen1 Hin)
    as Hfirst.
  cbv zeta in Hfirst. fold L in Hfirst. fold after in Hfirst. fold run in Hfirst.
  assert (Hsel : forall k, int_of_str int_elsewhere line = Some k ->
                   selection_of_line int_elsewhere line = Some k).
  { intros k Hk. unfold selection_of_line.
    destruct (String.eqb_spec line "") as [-> | _]; [discriminate Hk | exact Hk]. }
  split; [| split; [| split; [| split]]].
  - intros H0.
    destruct (getitem_minus_one label libs Hlen) as (n & lib & Hget & Hnth).
    unfold choose in Hfirst. rewrite (Hsel 0 H0) in Hfirst.
    fold L in Hget. rewrite Hget in Hfirst.
    exists lib. split; [exact Hfirst |].
    split.
    + apply (sorted_In label). eapply nth_error_In. exact Hnth.
    + intros other Hother.
      apply (ordered_last_greatest label (sorted label libs) lib).
      * apply sorted_ordered.
      * exact Hnth.
      * apply (sorted_In label). exact Hother.
  - intros k Hk Hbig.
    unfold choose in Hfirst. rewrite (Hsel k Hk) in Hfirst.
    unfold L in Hfirst. rewrite (getitem_beyond label libs k Hbig) in Hfirst.
    exact Hfirst.
  - intros k Hk.
    unfold choose in Hfirst. rewrite (Hsel k Hk) in Hfirst.
    destruct (getitem L (k - 1)) as [[? ?] |]; rewrite Hfirst; reflexivity.
  - apply (choose_continue int_elsewhere L line).
  - intros Hne Hnone.
    rewrite (proj2 (choose_continue int_elsewhere L line) (conj Hne Hnone)) in Hfirst.
    exact Hfirst.
Qed.

Lemma select_library_index_not_range_checked_witness :
  (2 <= length [library "Default"; library "Shop B"])%nat /\
  fst (select_library reject_elsewhere library_label [library "Default"; library "Shop B"]
         (start ["0"])) = inr (library "Shop B") /\
  fst (select_library reject_elsewhere library_label [library "Default"; library "Shop B"]
         (start ["3"; "1"])) = inl IndexError.
Proof.
  assert (Hlen : (2 <= length [library "Default"; library "Shop B"])%nat)
    by (simpl; lia).
  split; [exact Hlen |].
  split.
  - reflexivity.
  - pose proof (select_library_index_not_range_checked reject_elsewhere LibraryRecord
                  library_label [library "Default"; library "Shop B"]
                  (start ["3"; "1"]) "3" ["1"] Hlen eq_refl) as H.
    cbv zeta in H.
    destruct H as (_ & Hbeyond & _).
    rewrite (Hbeyond 3 eq_refl ltac:(simpl; lia)). reflexivity.
Defined.

End SelectLibraryClaims.

(** ** [create_tool] *)

Section CreateToolFacts.
Import py tooldb tooldb_manager.

Lemma contains_In (l : list string) (x : string) :
  contains l x = true -> In x l.
Proof.
  unfold contains. intros H.
  apply existsb_exists in H. destruct H as (y & Hy & Heq).
  apply String.eqb_eq in Heq. subst. exact Hy.
Qed.

(** A value that leaves the inner loop has passed the check. *)
Lemma accept_break (p : Property) (line val : string) :
  accept p line = Break val -> accepted p val.
Proof.
  unfold accept, accepted. intros H Hgiven. rewrite Hgiven in H. simpl in H.
  destruct (contains _ _) eqn:E; simpl in H; [| discriminate H].
  injection H as <-. apply contains_In. exact E.
Qed.

Lemma while_input_accept (p : Property) (w w' : world) (val : string) :
  while_input (msg p) (accept p) w = (inr val, w') -> accepted p val.
Proof.
  unfold while_input.
  destruct (ask_until _ _ _ _) as [r [rest out]] eqn:E.
  intros H. injection H as -> _.
  destruct (ask_until_break _ _ _ _ _ _ E) as (line & _ & Hb).
  eapply accept_break. exact Hb.
Qed.

(** The parameter loop stores, property by property, a value that has
    passed the check. *)
Lemma ask_parameters_assign (props : list Property) :
  forall (tool : Tool) (w : world) (tool' : Tool) (w' : world),
    ask_parameters props tool w = (inr tool', w') ->
    exists vals,
      Forall2 accepted props vals /\
      tool' = assign (combine props vals) tool.
Proof.
  induction props as [| p props IH]; intros tool w tool' w' H; simpl in H.
  - injection H as <- _. exists []. split; [constructor | reflexivity].
  - unfold bind in H.
    destruct (while_input (msg p) (accept p) w) as [[e | val] w1] eqn:E;
      [discriminate H |].
    destruct (IH _ _ _ _ H) as (vals & Hall & ->).
    exists (val :: vals). split; [| reflexivity].
    constructor; [| exact Hall].
    eapply while_input_accept. exact E.
Qed.

Lemma assign_lookup_other (chosen : list (Property * string)) :
  forall (tool : Tool) (k : string),
    ~ In k (map (fun c => propname (fst c)) chosen) ->
    params (assign chosen tool) !! k = params tool !! k.
Proof.
  induction chosen as [| [p v] chosen IH]; intros tool k Hk; simpl.
  - reflexivity.
  - rewrite IH by (intros Hin; apply Hk; right; exact Hin).
    simpl. apply lookup_insert_ne.
    intros Heq. apply Hk. left. exact Heq.
Qed.

Lemma combine_names (props : list Property) :
  forall vals : list string,
    Forall2 accepted props vals ->
    map (fun c => propname (fst c)) (combine props vals) = map propname props.
Proof.
  induction props as [| p props IH]; intros vals Hall;
    inversion Hall; subst; simpl; [reflexivity |].
  f_equal. apply IH. assumption.
Qed.

(** With distinct property names every property keeps the value that was
    stored for it. *)
Lemma assign_lookup (props : list Property) :
  forall (vals : list string) (tool : Tool),
    List.NoDup (map propname props) ->
    Forall2 accepted props vals ->
    forall p, In p props ->
      exists val,
        params (assign (combine props vals) tool) !! propname p = Some val /\
        accepted p val.
Proof.
  induction props as [| q props IH]; intros vals tool Hnd Hall p Hp.
  - contradiction.
  - inversion Hall as [| q' v props' vals' Hqv Hrest]; subst.
    simpl in Hnd. apply List.NoDup_cons_iff in Hnd. destruct Hnd as [Hq Hnd].
    simpl. destruct Hp as [<- | Hp].
    + exists v. split; [| exact Hqv].
      rewrite assign_lookup_other.
      * simpl. apply lookup_insert_eq.
      * rewrite (combine_names props vals' Hrest). exact Hq.
    + apply IH; assumption.
Qed.

(** What a successful run of [create_tool] went through. *)
Lemma create_tool_inr
    (new_Tool : string -> string -> exn + Tool)
    (get_shape_file_from_shape : string -> exn + string)
    (get_properties_from_shape : string -> exn + list Property)
    (shape : string) (w : world) (tool : Tool) (w' : world) :
  create_tool new_Tool get_shape_file_from_shape get_properties_from_shape
    shape w = (inr tool, w') ->
  exists file props label rest tool0 w1,
    get_shape_file_from_shape shape = inr file /\
    get_properties_from_shape file = inr props /\
    stdin w = label :: rest /\
    new_Tool label shape = inr tool0 /\
    ask_parameters props tool0 w1 = (inr tool, w').
Proof.
  unfold create_tool, bind, lift. intros H.
  destruct (get_shape_file_from_shape shape) as [e | file] eqn:Efile;
    [discriminate H |].
  destruct (get_properties_from_shape file) as [e | props] eqn:Eprops.
  - destruct e; simpl in H; discriminate H.
  - unfold input in H.
    destruct (stdin w) as [| label rest] eqn:Ein; [discriminate H |].
    destruct (new_Tool label shape) as [e | tool0] eqn:Enew;
      [discriminate H |].
    unfold print in H.
    eexists file, props, label, rest, tool0, _.
    split; [reflexivity |]. split; [exact Eprops |].
    split; [reflexivity |]. split; [exact Enew | exact H].
Qed.

End CreateToolFacts.

Section CreateToolClaims.
Import py tooldb tooldb_manager.

(** C7: tool creation validates the label. With an empty label the
    constructor fails with [ValidationError], and only then; a run of
    [create_tool] whose label line is empty produces no tool, and once the
    shape properties have been read it ends in [ValidationError] right
    after the label was asked, before any parameter is. *)
Theorem create_tool_rejects_empty_label :
  forall (get_shape_file_from_shape : string -> exn + string)
         (get_properties_from_shape : string -> exn + list Property)
         (shape : string) (w : world) (rest : list string),
    stdin w = "" :: rest ->
    let run :=
      create_tool Tool_create get_shape_file_from_shape
        get_properties_from_shape shape w in
    (forall label, Tool_create label shape = inl ValidationError <-> label = "") /\
    (forall tool w', run <> (inr tool, w')) /\
    (forall file props,
       get_shape_file_from_shape shape = inr file ->
       get_properties_from_shape file = inr props ->
       run = (inl ValidationError,
              {| stdin := rest;
                 stdout := (stdout w ++ ["Please enter a tool name (label): "])%list;
                 stderr := stderr w; store_log := store_log w |})).
Proof.
  intros gsf gpf shape w rest Hin run.
  split; [| split].
  - intros label. unfold Tool_create.
    destruct (String.eqb_spec label "") as [-> | Hne].
    + split; reflexivity.
    + split; [discriminate | contradiction].
  - intros tool w' Hrun.
    destruct (create_tool_inr _ _ _ _ _ _ _ Hrun)
      as (file & props & label & rest' & tool0 & w1 & _ & _ & Hl & Hnew & _).
    rewrite Hin in Hl. injection Hl as <- _.
    discriminate Hnew.
  - intros file props Hfile Hprops.
    unfold run, create_tool, bind, lift, input.
    rewrite Hfile, Hprops, Hin. reflexivity.
Qed.

Lemma create_tool_rejects_empty_label_witness :
  stdin (start [""; "6 mm"]) = "" :: ["6 mm"] /\
  fst (create_tool Tool_create sample_shape_file sample_properties
         "endmill" (start [""; "6 mm"])) = inl ValidationError.
Proof.
  split; [reflexivity |].
  pose proof (create_tool_rejects_empty_label sample_shape_file
                sample_properties "endmill" (start [""; "6 mm"]) ["6 mm"]
                eq_refl) as H.
  cbv zeta in H. destruct H as (_ & _ & H).
  rewrite (H "endmill.fcstd" endmill_properties eq_refl eq_refl).
  reflexivity.
Defined.

(** An empty line with a default outside the enumeration asks again. *)
Lemma accept_default_outside (p : Property) :
  enum_given (enum p) = true -> ~ In (value p) (enum_values (enum p)) ->
  accept p "" = Continue.
Proof.
  intros Hgiven Hout. unfold accept. simpl. rewrite Hgiven.
  destruct (contains _ _) eqn:E; [| reflexivity].
  exfalso. apply Hout. apply contains_In. exact E.
Qed.

(** C8 as stated fails: when a shape gives two properties the same name,
    the later one overwrites the entry of the earlier one. With the
    material and its enumeration followed by a property of the same name
    without enumeration, the map ends with [plutonium] under [Material],
    which is not among the allowed values of the first property. *)
Lemma create_tool_repeated_name_overwrites :
  ~ (forall (new_Tool : string -> string -> exn + Tool)
            (get_shape_file_from_shape : string -> exn + string)
            (get_properties_from_shape : string -> exn + list Property)
            (shape : string) (w : world) (tool : Tool) (w' : world)
            (file : string) (props : list Property) (p : Property),
       create_tool new_Tool get_shape_file_from_shape
         get_properties_from_shape shape w = (inr tool, w') ->
       get_shape_file_from_shape shape = inr file ->
       get_properties_from_shape file = inr props ->
       In p props -> enum_given (enum p) = true ->
       exists val,
         params tool !! propname p = Some val /\
         In val (enum_values (enum p))).
Proof.
  intros H.
  destruct (H Tool_create sample_shape_file
              (fun _ => inr repeated_name_properties) "endmill"
              (start ["T1"; ""; "plutonium"])
              (set_param (set_param
                 {| tool_label := "T1"; tool_shape := "endmill";
                    params := ∅ |} "Material" "HSS") "Material" "plutonium")
              {| stdin := [];
                 stdout := create_tool_header
                             ++ [msg material_property;
                                 msg {| group := "Notes";
                                        propname := "Material"; value := "";
                                        unit_ := ""; enum := None |}];
                 stderr := []; store_log := [] |}
              "endmill.fcstd" repeated_name_properties material_property
              eq_refl eq_refl eq_refl (or_introl eq_refl) eq_refl)
    as (val & Hval & Hin).
  cbn [params set_param propname material_property] in Hval.
  rewrite lookup_insert_eq in Hval. injection Hval as <-.
  cbn in Hin. destruct Hin as [Hin | [Hin | []]]; discriminate Hin.
Qed.

(** C8, amended: a tool produced by [create_tool] is the constructed tool
    with one value stored per shape property, in order, and every value
    the loop stores for a property with a non-empty list of allowed
    values is a member of that list. When the property names of the shape
    are pairwise distinct, the value found in the parameter map under the
    name of such a property is a member of its list. *)
Theorem create_tool_stores_allowed_values :
  forall (new_Tool : string -> string -> exn + Tool)
         (get_shape_file_from_shape : string -> exn + string)
         (get_properties_from_shape : string -> exn + list Property)
         (shape : string) (w : world) (tool : Tool) (w' : world),
    create_tool new_Tool get_shape_file_from_shape
      get_properties_from_shape shape w = (inr tool, w') ->
    exists file props vals tool0,
      get_shape_file_from_shape shape = inr file /\
      get_properties_from_shape file = inr props /\
      Forall2 accepted props vals /\
      tool = assign (combine props vals) tool0 /\
      (List.NoDup (map propname props) ->
       forall p, In p props -> enum_given (enum p) = true ->
         exists val,
           params tool !! propname p = Some val /\
           In val (enum_values (enum p))).
Proof.
  intros new_Tool gsf gpf shape w tool w' Hrun.
  destruct (create_tool_inr _ _ _ _ _ _ _ Hrun)
    as (file & props & label & rest & tool0 & w1
        & Hfile & Hprops & _ & _ & Hask).
  destruct (ask_parameters_assign _ _ _ _ _ Hask) as (vals & Hall & ->).
  exists file, props, vals, tool0.
  split; [exact Hfile |]. split; [exact Hprops |].
  split; [exact Hall |]. split; [reflexivity |].
  intros Hnd p Hp Hgiven.
  destruct (assign_lookup props vals tool0 Hnd Hall p Hp) as (val & Hval & Hacc).
  exists val. split; [exact Hval | exact (Hacc Hgiven)].
Qed.

Lemma create_tool_stores_allowed_values_witness :
  exists tool w',
    create_tool Tool_create sample_shape_file sample_properties "endmill"
      (start ["T1"; ""; "Carbide"; ""; "gold"; "TiN"]) = (inr tool, w') /\
    params tool !! "Material" = Some "Carbide" /\
    params tool !! "Coating" = Some "TiN" /\
    exists file props vals tool0,
      sample_shape_file "endmill" = inr file /\
      sample_properties file = inr props /\
      Forall2 accepted props vals /\
      tool = assign (combine props vals) tool0.
Proof.
  eexists _, _.
  split; [vm_compute; reflexivity |].
  split; [reflexivity |]. split; [reflexivity |].
  edestruct (create_tool_stores_allowed_values Tool_create sample_shape_file
               sample_properties "endmill"
               (start ["T1"; ""; "Carbide"; ""; "gold"; "TiN"]))
    as (file & props & vals & tool0 & Hf & Hp & Hall & Heq & _).
  { vm_compute. reflexivity. }
  exists file, props, vals, tool0.
  split; [exact Hf |]. split; [exact Hp |]. split; [exact Hall | exact Heq].
Defined.

End CreateToolClaims.

(** ** The dispatch *)

Section MainClaims.
Import py tooldb tooldb_manager.



(** The scenario evaluated: [create library] on the sample package. *)
Example create_library_on_sample :
  main sample_package (create_library_args "freecad" "tools") (start [])
  = (inl (SystemExit 2),
     {| stdin := []; stdout := [];
        stderr := [usage sample_package;
                   "tooldb-manager.py: error: sorry, not yet implemented"
                     ++ newline];
        store_log := [LoadedDB {| ser_format := "freecad";
                                  ser_name := "tools" |}] |}).
Proof. reflexivity. Qed.

End MainClaims.

(* ===================================================================== *)
(** * Part III: further properties of the code *)
(* ===================================================================== *)

(** ** More on the catalogue *)

Section CatalogExtras.
Import const material.

Ltac each_material :=
  let m := fresh "m" in
  let Hm := fresh "Hm" in
  intros m Hm; pattern m; revert m Hm; apply catalog_cases.

(** X22: every speed table of the catalogue has exactly the three keys
    MILLING, SLOTTING and DRILLING, in this order; looking up TURNING or
    PARTING finds no entry. *)
Theorem speed_tables_keys :
  forall m, In m catalog -> forall tm,
    map fst (speeds m tm) = [MILLING; SLOTTING; DRILLING] /\
    dict_get (speeds m tm) TURNING = None /\
    dict_get (speeds m tm) PARTING = None.
Proof. each_material; intros [|]; repeat split. Qed.

Lemma speed_tables_keys_witness :
  In Stainless catalog /\ dict_get (speeds Stainless CARBIDE) TURNING = None.
Proof.
  assert (H : In Stainless catalog) by (simpl; tauto).
  split; [exact H |].
  exact (proj1 (proj2 (speed_tables_keys Stainless H CARBIDE))).
Defined.

(** X23: every entry of every speed table is well formed: either it is
    the sentinel [(None, None)], which occurs for SLOTTING only, or both
    bounds are given, positive and in order. No range is half given and
    none is inverted. *)
Theorem speed_ranges_well_formed :
  forall m, In m catalog -> forall tm op r,
    dict_get (speeds m tm) op = Some r ->
    (r = (None, None) /\ op = SLOTTING) \/
    (exists lo hi, r = (Some lo, Some hi) /\ 0 < lo <= hi).
Proof.
  each_material; intros [|] [| | | |] r H; try discriminate H;
    injection H as <-;
    first [ left; split; reflexivity
          | right; eexists _, _; split; [reflexivity | lia] ].
Qed.

Lemma speed_ranges_well_formed_witness :
  In Titanium catalog /\
  dict_get (speeds Titanium HSS) MILLING = Some (Some 5, Some 7) /\
  ((Some 5, Some 7) = (None, None) /\ MILLING = SLOTTING \/
   exists lo hi, (Some 5, Some 7) = (Some lo, Some hi) /\ 0 < lo <= hi).
Proof.
  assert (H : In Titanium catalog) by (simpl; tauto).
  split; [exact H |]. split; [reflexivity |].
  exact (speed_ranges_well_formed Titanium H HSS MILLING _ eq_refl).
Defined.

(** X24: the power factor of every material is positive and at most
    [METRIC_POWER_FACTOR]: the literal that scales it lies in (0, 1]. *)
Theorem power_factor_bounds :
  forall m, In m catalog ->
    (0 < power_scale m)%Q /\ (power_scale m <= 1)%Q /\
    (0 < power_factor m)%Q /\ (power_factor m <= METRIC_POWER_FACTOR)%Q.
Proof.
  each_material; unfold power_factor, METRIC_POWER_FACTOR; simpl;
    repeat split; unfold Qlt, Qle; simpl; lia.
Qed.

Lemma power_factor_bounds_witness :
  In Iron catalog /\ (power_factor Iron <= METRIC_POWER_FACTOR)%Q.
Proof.
  assert (H : In Iron catalog) by (simpl; tauto).
  split; [exact H |].
  exact (proj2 (proj2 (proj2 (power_factor_bounds Iron H)))).
Defined.

(** X25: the eleven materials carry pairwise different display names, so
    a display name identifies its material. *)
Theorem material_names_distinct :
  length catalog = 11%nat /\
  List.NoDup (map name catalog) /\
  (forall m1 m2, In m1 catalog -> In m2 catalog ->
     name m1 = name m2 -> m1 = m2).
Proof.
  split; [reflexivity |].
  assert (Hnd : List.NoDup (map name catalog)).
  { unfold catalog. simpl.
    repeat (constructor; [simpl; intuition discriminate |]). constructor. }
  split; [exact Hnd |].
  intros m1 m2 H1 H2 Hname.
  apply In_nth_error in H1, H2.
  destruct H1 as (i & Hi), H2 as (j & Hj).
  assert (Hij : i = j).
  { apply (proj1 (List.NoDup_nth_error (map name catalog)) Hnd).
    - rewrite length_map. apply nth_error_Some. congruence.
    - rewrite !nth_error_map, Hi, Hj. simpl. congruence. }
  subst j. congruence.
Qed.

End CatalogExtras.

(** ** Printing an integer and reading it back *)

Section DecimalFacts.
Import py.

Lemma digits_step (c : ascii) (s : string) (acc d : Z) (b : bool) :
  digit_of c = Some d ->
  digits (String c s) acc b = digits s (10 * acc + d) true.
Proof. intros H. cbn [digits]. rewrite H. reflexivity. Qed.

Ltac digits_step_tac :=
  match goal with
  | |- digits (String ?c ?s) ?acc ?b = _ =>
      let d := eval vm_compute in (digit_of c) in
      match d with
      | Some ?k => rewrite (digits_step c s acc k b eq_refl)
      end
  end.

Lemma digits_of_uint_acc (u : Decimal.uint) :
  forall (acc : positive) (b : bool),
    u <> Decimal.Nil \/ b = true ->
    digits (NilEmpty.string_of_uint u) (Z.pos acc) b
    = Some (Z.pos (Pos.of_uint_acc u acc)).
Proof.
  induction u; intros acc b Hb;
    cbn [NilEmpty.string_of_uint Pos.of_uint_acc];
    [ destruct Hb as [Hb | ->]; [contradiction | reflexivity] | .. ];
    (digits_step_tac;
     match goal with
     | |- digits _ ?a true = Some (Z.pos (Pos.of_uint_acc _ ?p)) =>
         replace a with (Z.pos p) by lia
     end;
     apply IHu; right; reflexivity).
Qed.

Lemma digits_of_uint (u : Decimal.uint) :
  forall b : bool,
    u <> Decimal.Nil \/ b = true ->
    digits (NilEmpty.string_of_uint u) 0 b = Some (Z.of_N (Pos.of_uint u)).
Proof.
  induction u; intros b Hb;
    cbn [NilEmpty.string_of_uint Pos.of_uint];
    [ destruct Hb as [Hb | ->]; [contradiction | reflexivity]
    | digits_step_tac;
      change (10 * 0 + 0) with 0; apply IHu; right; reflexivity
    | .. ];
    (digits_step_tac;
     match goal with
     | |- digits _ ?a true = Some (Z.of_N (N.pos (Pos.of_uint_acc _ ?p))) =>
         change a with (Z.pos p)
     end;
     apply digits_of_uint_acc; right; reflexivity).
Qed.

(** Printed digits contain no white space, so stripping leaves them. *)
Lemma rstrip_of_uint (u : Decimal.uint) :
  rstrip (NilEmpty.string_of_uint u) = NilEmpty.string_of_uint u.
Proof.
  induction u; cbn [NilEmpty.string_of_uint rstrip]; try reflexivity;
    rewrite IHu; destruct (NilEmpty.string_of_uint u); reflexivity.
Qed.

Lemma int_of_plain_of_uint (u : Decimal.uint) :
  u <> Decimal.Nil ->
  int_of_plain (NilEmpty.string_of_uint u) = Some (Z.of_N (Pos.of_uint u)).
Proof.
  intros Hu. unfold int_of_plain. rewrite rstrip_of_uint.
  rewrite <- (digits_of_uint u false (or_introl Hu)).
  destruct u; [contradiction | ..]; reflexivity.
Qed.

Lemma int_of_plain_minus_of_uint (u : Decimal.uint) :
  u <> Decimal.Nil ->
  int_of_plain (String "-" (NilEmpty.string_of_uint u))
  = Some (- Z.of_N (Pos.of_uint u)).
Proof.
  intros Hu. unfold int_of_plain.
  assert (E : rstrip (String "-" (NilEmpty.string_of_uint u))
              = String "-" (NilEmpty.string_of_uint u)).
  { cbn [rstrip]. rewrite rstrip_of_uint.
    destruct u; [contradiction | ..]; reflexivity. }
  rewrite E. cbn [lstrip]. change (is_space "-") with false. cbv iota.
  rewrite (digits_of_uint u false (or_introl Hu)). reflexivity.
Qed.

(** Reading back, as a plain line, what ['{}'.format(n)] printed gives
    [n]. *)
Lemma int_of_plain_of_int (n : Z) : int_of_plain (str_of_int n) = Some n.
Proof.
  unfold str_of_int.
  destruct n as [| p | p]; [reflexivity | ..]; cbn [Z.to_int NilZero.string_of_int].
  - pose proof (Unsigned.to_uint_nonnil p) as Hp.
    unfold NilZero.string_of_uint.
    destruct (Pos.to_uint p) eqn:E; [contradiction | ..];
      rewrite <- E; (rewrite int_of_plain_of_uint by (rewrite E; discriminate));
      rewrite Unsigned.of_to; reflexivity.
  - pose proof (Unsigned.to_uint_nonnil p) as Hp.
    unfold NilZero.string_of_uint.
    destruct (Pos.to_uint p) eqn:E; [contradiction | ..];
      rewrite <- E; (rewrite int_of_plain_minus_of_uint by (rewrite E; discriminate));
      rewrite Unsigned.of_to; reflexivity.
Qed.

Lemma str_of_int_nonempty (n : Z) : str_of_int n <> "".
Proof.
  intros H. pose proof (int_of_plain_of_int n) as E. rewrite H in E. discriminate E.
Qed.

(** Printed digits are ASCII, one character per digit. *)
Lemma all_ascii_of_uint (u : Decimal.uint) :
  all_ascii (NilEmpty.string_of_uint u) = true.
Proof.
  induction u; cbn [NilEmpty.string_of_uint all_ascii]; try reflexivity;
    rewrite IHu; reflexivity.
Qed.

Lemma length_of_uint (u : Decimal.uint) :
  String.length (NilEmpty.string_of_uint u) = Decimal.nb_digits u.
Proof. induction u; simpl; congruence. Qed.

(** A numeral with [m] digits after the accumulator is worth at least the
    accumulator times [10 ^ m]. *)
Lemma of_uint_acc_lower (u : Decimal.uint) :
  forall acc : positive,
    Z.pos acc * 10 ^ Z.of_nat (Decimal.nb_digits u)
    <= Z.pos (Pos.of_uint_acc u acc).
Proof.
  induction u; intros acc; cbn [Decimal.nb_digits Pos.of_uint_acc];
    [ simpl; lia | .. ];
    (rewrite Nat2Z.inj_succ, Z.pow_succ_r by lia;
     eapply Z.le_trans; [| apply IHu];
     assert (0 < 10 ^ Z.of_nat (Decimal.nb_digits u))
       by (apply Z.pow_pos_nonneg; lia);
     nia).
Qed.

(** A positive number below [10 ^ 640] prints with at most 640 digits. *)
Lemma to_uint_digits (p : positive) :
  Z.pos p < 10 ^ 640 -> (Decimal.nb_digits (Pos.to_uint p) <= 640)%nat.
Proof.
  intros Hp.
  pose proof (Unsigned.of_to p) as Hof.
  pose proof (Unsigned.to_of (Pos.to_uint p)) as Hto.
  rewrite Hof in Hto. cbn [N.to_uint] in Hto.
  assert (Hbig : forall (l : Decimal.uint) (k : positive),
            Z.pos (Pos.of_uint_acc l k) = Z.pos p ->
            (S (Decimal.nb_digits l) <= 640)%nat).
  { intros l k Hk.
    pose proof (of_uint_acc_lower l k) as Hlow. rewrite Hk in Hlow.
    destruct (Nat.le_gt_cases (S (Decimal.nb_digits l)) 640) as [H | H];
      [exact H | exfalso].
    assert (H640 : 10 ^ 640 <= 10 ^ Z.of_nat (Decimal.nb_digits l))
      by (apply Z.pow_le_mono_r; lia).
    assert (0 < 10 ^ Z.of_nat (Decimal.nb_digits l))
      by (apply Z.pow_pos_nonneg; lia).
    nia. }
  destruct (Pos.to_uint p) as [| l | l | l | l | l | l | l | l | l | l] eqn:E;
    cbn [Decimal.nb_digits];
    try (cbn [Pos.of_uint] in Hof; injection Hof as Hof;
         apply (Hbig l _ (f_equal Z.pos Hof))).
  - lia.
  - exfalso. rewrite DecimalFacts.unorm_D0 in Hto.
    destruct l as [| l' | l' | l' | l' | l' | l' | l' | l' | l' | l'];
      [ cbn [Pos.of_uint] in Hof; discriminate Hof | .. ];
      match type of Hto with
      | _ = Decimal.unorm ?l0 =>
          pose proof (DecimalFacts.nb_digits_unorm l0 ltac:(discriminate)) as Hle
      end;
      rewrite <- Hto in Hle; cbn [Decimal.nb_digits] in Hle; lia.
Qed.

Lemma str_of_int_plain (n : Z) :
  0 <= n < 10 ^ 640 -> plain (str_of_int n) = true.
Proof.
  intros [Hlo Hhi]. unfold str_of_int, plain.
  destruct n as [| p | p]; [reflexivity | | lia].
  cbn [Z.to_int NilZero.string_of_int].
  pose proof (Unsigned.to_uint_nonnil p) as Hnil.
  pose proof (to_uint_digits p Hhi) as Hdig.
  unfold NilZero.string_of_uint.
  destruct (Pos.to_uint p) eqn:E; [contradiction | ..]; rewrite <- E in *;
    rewrite all_ascii_of_uint, length_of_uint;
    apply Nat.leb_le in Hdig; rewrite Hdig; reflexivity.
Qed.

(** Reading back what ['{}'.format(n)] printed gives [n], for a number
    short enough to stay under every limit on digit strings. *)
Lemma int_of_str_of_int (int_elsewhere : string -> option Z) (n : Z) :
  0 <= n < 10 ^ 640 -> int_of_str int_elsewhere (str_of_int n) = Some n.
Proof.
  intros Hn. unfold int_of_str.
  rewrite (str_of_int_plain n Hn). apply int_of_plain_of_int.
Qed.
End DecimalFacts.

(** ** More on the runtime *)

Section RuntimeMore.
Import py.

Lemma getitem_In {A} (l : list A) (i : Z) (x : A) :
  getitem l i = Some x -> In x l.
Proof.
  unfold getitem.
  destruct ((0 <=? i) && (i <? Z.of_nat (length l)));
    [apply nth_error_In |].
  destruct ((- Z.of_nat (length l) <=? i) && (i <? 0));
    [apply nth_error_In | discriminate].
Qed.

Lemma getitem_nonnegative {A} (l : list A) (i : Z) :
  0 <= i < Z.of_nat (length l) -> getitem l i = nth_error l (Z.to_nat i).
Proof.
  intros [Hlo Hhi]. unfold getitem.
  apply Z.leb_le in Hlo. apply Z.ltb_lt in Hhi.
  rewrite Hlo, Hhi. reflexivity.
Qed.

Lemma getitem_negative {A} (l : list A) (i : Z) :
  - Z.of_nat (length l) <= i < 0 ->
  getitem l i = nth_error l (Z.to_nat (i + Z.of_nat (length l))).
Proof.
  intros [Hlo Hhi]. unfold getitem.
  replace (0 <=? i) with false by (symmetry; apply Z.leb_gt; lia).
  apply Z.leb_le in Hlo. apply Z.ltb_lt in Hhi.
  simpl. rewrite Hlo, Hhi. reflexivity.
Qed.

Lemma getitem_outside {A} (l : list A) (i : Z) :
  i < - Z.of_nat (length l) \/ Z.of_nat (length l) <= i ->
  getitem l i = None.
Proof.
  intros H. unfold getitem.
  destruct (Z.leb_spec 0 i), (Z.ltb_spec i (Z.of_nat (length l))),
    (Z.leb_spec (- Z.of_nat (length l)) i), (Z.ltb_spec i 0);
    simpl; try reflexivity; lia.
Qed.

Lemma enumerate_In {A} (l : list A) (start k : Z) (a : A) :
  In (k, a) (enumerate l start) -> In a l.
Proof.
  revert start. induction l as [| x l IH]; intros start; simpl; [tauto |].
  intros [H | H]; [left; congruence | right; eapply IH; exact H].
Qed.

Lemma enumerate_values {A} (l : list A) (start : Z) :
  map snd (enumerate l start) = l.
Proof.
  revert start. induction l as [| x l IH]; intros start; simpl;
    [reflexivity | rewrite IH; reflexivity].
Qed.


(** The prompt is written once per line read, and once more when the
    input ends before the loop is left. *)
Lemma ask_until_prompts {A} (prompt : string) (body : string -> step A)
    (lines : list string) :
  exists consumed k,
    lines = (consumed ++ fst (snd (ask_until prompt body lines [])))%list /\
    snd (snd (ask_until prompt body lines [])) = repeat prompt (S k) /\
    (length consumed <= S k <= S (length consumed))%nat.
Proof.
  induction lines as [| line lines IH]; simpl.
  - exists [], 0%nat. repeat split; simpl; lia.
  - destruct (body line).
    + destruct IH as (consumed & k & Hc & Hp & Hk).
      rewrite (ask_until_out prompt body lines [prompt]). simpl.
      exists (line :: consumed), (S k).
      split; [simpl; f_equal; exact Hc |].
      split; [rewrite Hp; reflexivity | simpl; lia].
    + exists [line], 0%nat. repeat split; simpl; lia.
    + exists [line], 0%nat. repeat split; simpl; lia.
Qed.

(** When the body says [continue] on every line, the loop ends in
    [EOFError] once the input is used up. *)
Lemma ask_until_exhausted {A} (prompt : string) (body : string -> step A)
    (lines out : list string) :
  Forall (fun line => body line = Continue) lines ->
  ask_until prompt body lines out
  = (inl EOFError, ([], (out ++ repeat prompt (S (length lines)))%list)).
Proof.
  intros Hall. revert out.
  induction Hall as [| line lines Hline Hall IH]; intros out; simpl.
  - reflexivity.
  - rewrite Hline, IH, <- app_assoc. reflexivity.
Qed.

Lemma insert_sorted_filter {A} (key : A -> string) (f : A -> bool)
    (x : A) (l : list A) :
  (forall a b, f a = true -> f b = true -> key a = key b) ->
  List.filter f (insert_sorted key x l) = List.filter f (x :: l).
Proof.
  intros Hf. induction l as [| y l IH]; [reflexivity |].
  cbn [insert_sorted].
  destruct (String.leb (key x) (key y)) eqn:E; [reflexivity |].
  cbn [List.filter] in *. rewrite IH.
  destruct (f x) eqn:Ex, (f y) eqn:Ey; try reflexivity.
  rewrite (Hf x y Ex Ey), string_leb_refl in E. discriminate E.
Qed.

Lemma sorted_filter {A} (key : A -> string) (f : A -> bool) (l : list A) :
  (forall a b, f a = true -> f b = true -> key a = key b) ->
  List.filter f (sorted key l) = List.filter f l.
Proof.
  intros Hf. induction l as [| x l IH]; [reflexivity |].
  cbn [sorted]. rewrite (insert_sorted_filter key f x _ Hf).
  cbn [List.filter]. rewrite IH. reflexivity.
Qed.

End RuntimeMore.

(** ** More on [select_library] *)

Section SelectLibraryMore.
Import py tooldb tooldb_manager.
Variable int_elsewhere : string -> option Z.
Context {Library : Type} (label : Library -> string).

Local Abbreviation numbered libs := (enumerate (sorted label libs) 1).

Lemma choose_break_In (L : list (Z * Library)) (line : string) (lib : Library) :
  choose int_elsewhere L line = Break lib -> exists n, In (n, lib) L.
Proof.
  unfold choose.
  destruct (selection_of_line int_elsewhere line) as [k |]; [| discriminate].
  destruct (getitem L (k - 1)) as [[n lib'] |] eqn:E; [| discriminate].
  intros H. injection H as <-. exists n. eapply getitem_In. exact E.
Qed.

(** The line typed is an integer [k]: what [libraries[k-1]] gives. *)
Lemma select_library_integer (libs : list Library) (w : world)
    (line : string) (rest : list string) (k : Z) :
  length libs <> 1%nat -> stdin w = line :: rest ->
  int_of_str int_elsewhere line = Some k ->
  select_library int_elsewhere label libs w
  = (match getitem (numbered libs) (k - 1) with
     | Some (_, lib) => inr lib
     | None => inl IndexError
     end, asked_once label libs w rest).
Proof.
  intros Hlen Hin Hk.
  pose proof (select_library_first_line int_elsewhere label libs w line rest Hlen Hin) as H.
  cbv zeta in H. unfold choose, selection_of_line in H.
  destruct (String.eqb_spec line "") as [-> | _]; [discriminate Hk |].
  rewrite Hk in H.
  destruct (getitem (numbered libs) (k - 1)) as [[n lib] |]; exact H.
Qed.

Lemma numbered_nth_error (libs : list Library) (i : nat) :
  nth_error (numbered libs) i
  = option_map (fun lib => (1 + Z.of_nat i, lib))
      (nth_error (sorted label libs) i).
Proof. apply enumerate_nth_error. Qed.

(** Typing the number of entry [i] of the menu returns that entry. *)
Lemma select_library_number_selects_aux (libs : list Library) (w : world)
    (rest : list string) (i : nat) (lib : Library) :
  length libs <> 1%nat ->
  Z.of_nat (length libs) < 10 ^ 640 ->
  nth_error (sorted label libs) i = Some lib ->
  stdin w = str_of_int (1 + Z.of_nat i) :: rest ->
  select_library int_elsewhere label libs w = (inr lib, asked_once label libs w rest).
Proof.
  intros Hlen Hmany Hnth Hin.
  assert (Hi : (i < length (sorted label libs))%nat)
    by (apply nth_error_Some; congruence).
  rewrite sorted_length in Hi.
  assert (Hbound : 0 <= 1 + Z.of_nat i < 10 ^ 640) by lia.
  rewrite (select_library_integer libs w _ rest _ Hlen Hin
             (int_of_str_of_int int_elsewhere _ Hbound)).
  rewrite getitem_nonnegative
    by (rewrite (numbered_length label libs); lia).
  replace (Z.to_nat (1 + Z.of_nat i - 1)) with i by lia.
  rewrite numbered_nth_error, Hnth. reflexivity.
Qed.

Lemma select_library_store_log (libs : list Library) (w : world) :
  store_log (snd (select_library int_elsewhere label libs w)) = store_log w.
Proof.
  destruct (Nat.eq_dec (length libs) 1%nat) as [Hone | Hlen].
  - destruct libs as [| a [| b libs]]; try discriminate Hone. reflexivity.
  - rewrite (select_library_run int_elsewhere label libs w Hlen). reflexivity.
Qed.

Lemma last_default_app (L1 L2 : list (Z * Library)) (d : option Z) :
  last_default label (L1 ++ L2) d
  = last_default label L2 (last_default label L1 d).
Proof.
  revert d. induction L1 as [| [n lib] L1 IH]; intros d; simpl;
    [reflexivity | apply IH].
Qed.

(** Either no entry is labeled Default and [default] keeps its value, or
    it is the number of the last entry labeled Default. *)
Lemma last_default_cases (L : list (Z * Library)) (d : option Z) :
  (last_default label L d = d /\
   Forall (fun e => is_default label (snd e) = false) L) \/
  (exists L1 n lib L2,
     L = (L1 ++ (n, lib) :: L2)%list /\ is_default label lib = true /\
     Forall (fun e => is_default label (snd e) = false) L2 /\
     last_default label L d = Some n).
Proof.
  revert d. induction L as [| [n lib] L IH]; intros d.
  - left. split; [reflexivity | constructor].
  - cbn [last_default].
    destruct (IH (if is_default label lib then Some n else d))
      as [[Hd Hnone] | (L1 & m & lib' & L2 & -> & Hdef & Hnone & Hd)].
    + destruct (is_default label lib) eqn:E.
      * right. exists [], n, lib, L. repeat split; assumption.
      * left. split; [exact Hd |]. constructor; [exact E | exact Hnone].
    + right. exists ((n, lib) :: L1), m, lib', L2.
      repeat split; assumption.
Qed.

Lemma is_default_label (lib : Library) :
  is_default label lib = true <-> label lib = "Default".
Proof. unfold is_default. apply String.eqb_eq. Qed.

End SelectLibraryMore.

Section SelectLibraryExtras.
Import py tooldb tooldb_manager.

(** X1: whatever is typed, a library that [select_library] returns is one
    of the libraries it was given. *)
Theorem select_library_returns_member :
  forall (int_elsewhere : string -> option Z) (Library : Type)
         (label : Library -> string) (libs : list Library)
         (w w' : world) (lib : Library),
    select_library int_elsewhere label libs w = (inr lib, w') -> In lib libs.
Proof.
  intros int_elsewhere Library label libs w w' lib.
  destruct (Nat.eq_dec (length libs) 1%nat) as [Hone | Hlen].
  - destruct libs as [| a [| b libs]]; try discriminate Hone.
    intros H. injection H as <- _. left. reflexivity.
  - rewrite (select_library_run int_elsewhere label libs w Hlen). cbv zeta.
    destruct (ask_until _ _ _ _) as [r rest] eqn:E. simpl.
    intros H. injection H as -> _.
    destruct (ask_until_break _ _ _ _ _ _ E) as (line & _ & Hb).
    destruct (choose_break_In _ _ _ _ Hb) as (n & Hn).
    apply (sorted_In label). eapply enumerate_In. exact Hn.
Qed.

Lemma select_library_returns_member_witness :
  In (library "Shop B") [library "Default"; library "Shop B"].
Proof.
  eapply (select_library_returns_member reject_elsewhere LibraryRecord library_label _
            (start ["x"; "2"])).
  vm_compute. reflexivity.
Defined.

(** X2: a single library is returned at once, with nothing written and
    nothing read, even at the end of the input; with no library at all no
    library is returned: an integer typed raises [IndexError], and the
    run ends in [IndexError] or [EOFError] in every case. *)
Theorem select_library_one_or_none :
  forall (int_elsewhere : string -> option Z) (Library : Type)
         (label : Library -> string),
    (forall lib w, select_library int_elsewhere label [lib] w = (inr lib, w)) /\
    (forall w line rest k,
       stdin w = line :: rest -> int_of_str int_elsewhere line = Some k ->
       fst (select_library int_elsewhere label [] w) = inl IndexError) /\
    (forall w,
       fst (select_library int_elsewhere label [] w) = inl IndexError \/
       fst (select_library int_elsewhere label [] w) = inl EOFError).
Proof.
  intros int_elsewhere Library label. split; [reflexivity | split].
  - intros w line rest k Hin Hk.
    rewrite (select_library_integer int_elsewhere label [] w line rest k
               ltac:(discriminate) Hin Hk).
    rewrite getitem_outside by (simpl; lia). reflexivity.
  - intros w.
    rewrite (select_library_run int_elsewhere label [] w ltac:(discriminate)). cbv zeta.
    cbn [fst sorted enumerate menu map].
    generalize (stdout w ++ [])%list.
    induction (stdin w) as [| line lines IH]; intros out; simpl.
    + right. reflexivity.
    + destruct (choose int_elsewhere [] line) as [| lib | e] eqn:E.
      * apply IH.
      * destruct (choose_break_In _ _ _ _ E) as (n & []).
      * left. unfold choose in E.
        destruct (selection_of_line int_elsewhere line) as [k |]; [| discriminate E].
        destruct (getitem [] (k - 1)) as [[? ?] |]; [discriminate E |].
        injection E as <-. reflexivity.
Qed.

(** X3: with no library or several, an integer [k] typed on the first
    line is used as the index [k - 1] of the list sorted by label, the way
    Python indexes: [1 <= k <= n] returns entry [k] of the menu,
    [1 - n <= k <= 0] counts from the end of the menu, and every other
    integer raises [IndexError]. In each case one line is read. *)
Theorem select_library_by_index :
  forall (int_elsewhere : string -> option Z) (Library : Type)
         (label : Library -> string) (libs : list Library)
         (w : world) (line : string) (rest : list string) (k : Z),
    length libs <> 1%nat -> stdin w = line :: rest ->
    int_of_str int_elsewhere line = Some k ->
    let n := Z.of_nat (length libs) in
    let run := select_library int_elsewhere label libs w in
    (1 <= k <= n ->
       exists lib,
         nth_error (sorted label libs) (Z.to_nat (k - 1)) = Some lib /\
         run = (inr lib, asked_once label libs w rest)) /\
    (1 - n <= k <= 0 ->
       exists lib,
         nth_error (sorted label libs) (Z.to_nat (k - 1 + n)) = Some lib /\
         run = (inr lib, asked_once label libs w rest)) /\
    (k < 1 - n \/ n < k ->
       run = (inl IndexError, asked_once label libs w rest)).
Proof.
  intros int_elsewhere Library label libs w line rest k Hlen Hin Hk n run.
  unfold run. rewrite (select_library_integer int_elsewhere label libs w line rest k Hlen Hin Hk).
  pose proof (numbered_length label libs) as HL.
  split; [| split].
  - intros Hrange.
    rewrite getitem_nonnegative by (rewrite HL; lia).
    rewrite numbered_nth_error.
    destruct (nth_error (sorted label libs) (Z.to_nat (k - 1))) as [lib |] eqn:E.
    + exists lib. split; reflexivity.
    + apply nth_error_None in E. rewrite sorted_length in E. lia.
  - intros Hrange.
    rewrite getitem_negative by (rewrite HL; lia).
    rewrite HL, numbered_nth_error. fold n.
    destruct (nth_error (sorted label libs) (Z.to_nat (k - 1 + n))) as [lib |] eqn:E.
    + exists lib. split; reflexivity.
    + apply nth_error_None in E. rewrite sorted_length in E. lia.
  - intros Hout.
    rewrite getitem_outside by (rewrite HL; lia). reflexivity.
Qed.

Lemma select_library_by_index_witness :
  fst (select_library reject_elsewhere library_label
         [library "Shop B"; library "Default"; library "Attic"]
         (start ["-1"])) = inr (library "Default").
Proof.
  pose proof (select_library_by_index reject_elsewhere LibraryRecord library_label
                [library "Shop B"; library "Default"; library "Attic"]
                (start ["-1"]) "-1" [] (-1)
                ltac:(discriminate) eq_refl eq_refl) as H.
  cbv zeta in H. destruct H as (_ & Hneg & _).
  destruct (Hneg ltac:(simpl; lia)) as (lib & Hnth & Hrun).
  rewrite Hrun. simpl. vm_compute in Hnth. injection Hnth as <-. reflexivity.
Defined.

(** X4: the number printed in front of a library selects it: with no
    library or several, line [i] of the menu starts with the number
    [i + 1] as [format] prints it, and typing that text returns the library
    on that line. The libraries number fewer than [10 ^ 640], as every
    list in memory does, so that the number printed stays under the limit
    [int] puts on digit strings. *)
Theorem select_library_number_selects :
  forall (int_elsewhere : string -> option Z) (Library : Type)
         (label : Library -> string) (libs : list Library)
         (w : world) (rest : list string) (i : nat) (lib : Library),
    length libs <> 1%nat ->
    Z.of_nat (length libs) < 10 ^ 640 ->
    nth_error (sorted label libs) i = Some lib ->
    stdin w = str_of_int (1 + Z.of_nat i) :: rest ->
    nth_error (menu label (enumerate (sorted label libs) 1)) i
      = Some ((str_of_int (1 + Z.of_nat i) ++ ") " ++ label lib
                 ++ (if is_default label lib then "*" else "")) ++ newline) /\
    select_library int_elsewhere label libs w = (inr lib, asked_once label libs w rest).
Proof.
  intros int_elsewhere Library label libs w rest i lib Hlen Hmany Hnth Hin.
  split.
  - unfold menu. rewrite nth_error_map, numbered_nth_error, Hnth. reflexivity.
  - apply (select_library_number_selects_aux int_elsewhere label libs w rest i
             lib Hlen Hmany Hnth Hin).
Qed.

Lemma select_library_number_selects_witness :
  fst (select_library reject_elsewhere library_label
         [library "Shop B"; library "Default"; library "Attic"]
         (start ["3"])) = inr (library "Shop B").
Proof.
  rewrite (proj2 (select_library_number_selects reject_elsewhere LibraryRecord library_label
                    [library "Shop B"; library "Default"; library "Attic"]
                    (start ["3"]) [] 2%nat (library "Shop B")
                    ltac:(discriminate) ltac:(reflexivity) eq_refl eq_refl)).
  reflexivity.
Defined.

End SelectLibraryExtras.

Section SelectLibraryExtras2.
Import py tooldb tooldb_manager.



(** X6: the sort is stable: libraries that carry the same label appear in
    the menu in the order in which they were given. *)
Theorem select_library_menu_stable :
  forall (Library : Type) (label : Library -> string) (libs : list Library)
         (s : string),
    List.filter (fun lib => String.eqb (label lib) s)
      (map snd (enumerate (sorted label libs) 1))
    = List.filter (fun lib => String.eqb (label lib) s) libs.
Proof.
  intros Library label libs s. rewrite enumerate_values.
  apply sorted_filter.
  intros a b Ha Hb. apply String.eqb_eq in Ha, Hb. congruence.
Qed.

(** X7: the default shown in the prompt. It is [None] exactly when no
    library is labeled Default; otherwise it is the menu number of the
    last library labeled Default, and typing that number returns a library
    labeled Default (the libraries numbering fewer than [10 ^ 640], as
    every list in memory does). *)
Theorem select_library_prompt_default :
  forall (int_elsewhere : string -> option Z) (Library : Type)
         (label : Library -> string) (libs : list Library),
    let d := last_default label (enumerate (sorted label libs) 1) None in
    (d = None <-> Forall (fun lib => label lib <> "Default") libs) /\
    (forall k, d = Some k ->
       exists i lib,
         k = 1 + Z.of_nat i /\
         nth_error (sorted label libs) i = Some lib /\
         label lib = "Default" /\
         (forall j lib', (i < j)%nat ->
            nth_error (sorted label libs) j = Some lib' ->
            label lib' <> "Default") /\
         (forall w rest,
            length libs <> 1%nat -> Z.of_nat (length libs) < 10 ^ 640 ->
            stdin w = str_of_int k :: rest ->
            select_library int_elsewhere label libs w
            = (inr lib, asked_once label libs w rest))).
Proof.
  intros int_elsewhere Library label libs d.
  assert (Hnot : forall lib, is_default label lib = false <-> label lib <> "Default").
  { intros lib. unfold is_default. apply String.eqb_neq. }
  destruct (last_default_cases label (enumerate (sorted label libs) 1) None)
    as [[Hd Hnone] | (L1 & n & lib & L2 & HL & Hdef & Hnone & Hd)];
    fold d in Hd.
  - assert (Hall : Forall (fun lib => label lib <> "Default") libs).
    { rewrite List.Forall_forall in *. intros lib Hlib.
      apply (sorted_In label) in Hlib.
      apply In_nth_error in Hlib. destruct Hlib as (i & Hi).
      apply Hnot.
      apply (Hnone (1 + Z.of_nat i, lib)).
      eapply nth_error_In. rewrite numbered_nth_error, Hi. reflexivity. }
    split; [split; [intros _; exact Hall | intros _; exact Hd] |].
    intros k Hk. rewrite Hd in Hk. discriminate Hk.
  - assert (Hnth : nth_error (enumerate (sorted label libs) 1) (length L1)
                   = Some (n, lib)).
    { rewrite HL, nth_error_app2 by lia. rewrite Nat.sub_diag. reflexivity. }
    rewrite numbered_nth_error in Hnth.
    destruct (nth_error (sorted label libs) (length L1)) as [lib0 |] eqn:E;
      [| discriminate Hnth].
    simpl in Hnth. injection Hnth as <- ->.
    apply is_default_label in Hdef.
    split.
    + split; [intros Hnone'; rewrite Hd in Hnone'; discriminate Hnone' |].
      intros Hall. exfalso.
      rewrite List.Forall_forall in Hall.
      apply (Hall lib); [| exact Hdef].
      apply (sorted_In label). eapply nth_error_In. exact E.
    + intros k Hk. rewrite Hd in Hk. injection Hk as <-.
      exists (length L1), lib.
      split; [reflexivity |]. split; [exact E |]. split; [exact Hdef |].
      split.
      * intros j lib' Hj Hnth'.
        apply Hnot.
        rewrite List.Forall_forall in Hnone.
        apply (Hnone (1 + Z.of_nat j, lib')).
        assert (Hj' : nth_error (enumerate (sorted label libs) 1) j
                      = Some (1 + Z.of_nat j, lib'))
          by (rewrite numbered_nth_error, Hnth'; reflexivity).
        rewrite HL in Hj'.
        rewrite nth_error_app2 in Hj' by lia.
        destruct (j - length L1)%nat as [| m] eqn:Em; [lia |].
        simpl in Hj'. eapply nth_error_In. exact Hj'.
      * intros w rest Hlen Hmany Hin.
        apply (select_library_number_selects_aux int_elsewhere label libs w rest
                 (length L1) lib Hlen Hmany E Hin).
Qed.

End SelectLibraryExtras2.

Section SelectLibraryExtras3.
Import py tooldb tooldb_manager.

(** X8: with no library or several, when every line of the input is
    non-empty and not an integer, [select_library] asks once per line and
    once more, then ends in [EOFError] with the input used up. *)
Theorem select_library_end_of_input :
  forall (int_elsewhere : string -> option Z) (Library : Type)
         (label : Library -> string) (libs : list Library)
         (w : world),
    length libs <> 1%nat ->
    Forall (fun line => line <> "" /\ int_of_str int_elsewhere line = None) (stdin w) ->
    let L := enumerate (sorted label libs) 1 in
    select_library int_elsewhere label libs w
    = (inl EOFError,
       {| stdin := [];
          stdout := (stdout w ++ menu label L
                       ++ repeat (select_prompt (last_default label L None))
                            (S (length (stdin w))))%list;
          stderr := stderr w; store_log := store_log w |}).
Proof.
  intros int_elsewhere Library label libs w Hlen Hall L.
  rewrite (select_library_run int_elsewhere label libs w Hlen). cbv zeta. fold L.
  rewrite ask_until_exhausted.
  - simpl. rewrite <- app_assoc. reflexivity.
  - eapply List.Forall_impl; [| exact Hall].
    intros line Hline. apply choose_continue. exact Hline.
Qed.

Lemma select_library_end_of_input_witness :
  select_library reject_elsewhere library_label [library "Default"; library "Shop B"]
    (start ["first"; "2nd"])
  = (inl EOFError,
     {| stdin := [];
        stdout := ["1) Default*" ++ newline; "2) Shop B" ++ newline;
                   "Please select the library number [1]";
                   "Please select the library number [1]";
                   "Please select the library number [1]"];
        stderr := []; store_log := [] |}).
Proof.
  rewrite (select_library_end_of_input reject_elsewhere LibraryRecord library_label
             [library "Default"; library "Shop B"] (start ["first"; "2nd"])
             ltac:(discriminate)).
  - reflexivity.
  - repeat constructor; discriminate.
Defined.


End SelectLibraryExtras3.

(** ** More on [create_tool] *)

Section CreateToolMore.
Import py tooldb tooldb_manager.

Lemma In_contains (l : list string) (x : string) :
  In x l -> contains l x = true.
Proof.
  intros H. unfold contains. apply existsb_exists.
  exists x. split; [exact H | apply String.eqb_refl].
Qed.

Lemma accept_answer (p : Property) (line : string) :
  accepted p (answer p line) -> accept p line = Break (answer p line).
Proof.
  unfold accepted, accept, answer. intros H.
  destruct (enum_given (enum p)); [| reflexivity].
  rewrite (In_contains _ _ (H eq_refl)). reflexivity.
Qed.

Lemma accept_reject (p : Property) (line : string) :
  enum_given (enum p) = true ->
  ~ In (answer p line) (enum_values (enum p)) ->
  accept p line = Continue.
Proof.
  unfold accept, answer. intros Hgiven Hout. rewrite Hgiven.
  destruct (contains _ _) eqn:E; [| reflexivity].
  exfalso. apply Hout. apply contains_In. exact E.
Qed.

(** A loop left with a value has skipped the lines before the one that
    gave it. *)
Lemma ask_until_inr {A} (prompt : string) (body : string -> step A)
    (lines out : list string) (a : A) (rest out' : list string) :
  ask_until prompt body lines out = (inr a, (rest, out')) ->
  exists skipped line,
    lines = (skipped ++ line :: rest)%list /\
    Forall (fun l => body l = Continue) skipped /\
    body line = Break a.
Proof.
  revert out. induction lines as [| line lines IH]; intros out; simpl.
  - discriminate.
  - destruct (body line) eqn:E; intros H.
    + destruct (IH _ H) as (skipped & l & -> & Hs & Hb).
      exists (line :: skipped), l.
      split; [reflexivity |]. split; [constructor; assumption | exact Hb].
    + injection H as <- <- _. exists [], line.
      split; [reflexivity |]. split; [constructor | exact E].
    + discriminate.
Qed.

(** What the input loop leaves untouched. *)
Lemma while_input_frame {A} (prompt : string) (body : string -> step A)
    (w : world) :
  let w' := snd (while_input prompt body w) in
  stderr w' = stderr w /\ store_log w' = store_log w /\
  (exists written, stdout w' = (stdout w ++ written)%list) /\
  (exists consumed, stdin w = (consumed ++ stdin w')%list).
Proof.
  unfold while_input. rewrite ask_until_out.
  destruct (ask_until_prompts prompt body (stdin w))
    as (consumed & k & Hc & _ & _).
  simpl. split; [reflexivity |]. split; [reflexivity |].
  split; [eexists; reflexivity | exists consumed; exact Hc].
Qed.

Lemma while_input_inr {A} (prompt : string) (body : string -> step A)
    (w w' : world) (a : A) :
  while_input prompt body w = (inr a, w') ->
  exists skipped line,
    stdin w = (skipped ++ line :: stdin w')%list /\ body line = Break a.
Proof.
  unfold while_input.
  destruct (ask_until _ _ _ _) as [r [rest out]] eqn:E.
  intros H. injection H as -> <-. simpl.
  destruct (ask_until_inr _ _ _ _ _ _ _ E) as (skipped & line & Hl & _ & Hb).
  exists skipped, line. split; assumption.
Qed.

Lemma ask_parameters_frame (props : list Property) :
  forall (tool : Tool) (w : world),
    let w' := snd (ask_parameters props tool w) in
    stderr w' = stderr w /\ store_log w' = store_log w /\
    (exists written, stdout w' = (stdout w ++ written)%list) /\
    (exists consumed,
       stdin w = (consumed ++ stdin w')%list /\
       (forall tool', fst (ask_parameters props tool w) = inr tool' ->
          (length props <= length consumed)%nat)).
Proof.
  induction props as [| p props IH]; intros tool w; cbn [ask_parameters].
  - simpl. split; [reflexivity |]. split; [reflexivity |].
    split; [exists []; symmetry; apply app_nil_r |].
    exists []. split; [reflexivity | intros _ _; simpl; lia].
  - unfold bind.
    pose proof (while_input_frame (msg p) (accept p) w) as Hw.
    destruct (while_input (msg p) (accept p) w) as [[e | val] w1] eqn:E.
    + cbv zeta in Hw. cbn [snd] in *.
      destruct Hw as (H1 & H2 & H3 & (consumed & Hc)).
      split; [exact H1 |]. split; [exact H2 |]. split; [exact H3 |].
      exists consumed. split; [exact Hc | discriminate].
    + cbv zeta in Hw. cbn [snd] in Hw.
      destruct Hw as (H1 & H2 & (wr1 & H3) & _).
      destruct (while_input_inr _ _ _ _ _ E) as (skipped & line & Hs & _).
      specialize (IH (set_param tool (propname p) val) w1).
      cbv zeta in IH.
      destruct IH as (I1 & I2 & (wr2 & I3) & (consumed & Ic & Ilen)).
      split; [congruence |]. split; [congruence |].
      split; [exists (wr1 ++ wr2)%list; rewrite I3, H3, app_assoc; reflexivity |].
      exists ((skipped ++ [line]) ++ consumed)%list.
      split.
      * rewrite Hs, Ic, <- !app_assoc. reflexivity.
      * intros tool' Hok. specialize (Ilen tool' Hok).
        rewrite !length_app. simpl. lia.
Qed.

(** Lines that are accepted at once are taken one per property. *)
Lemma ask_parameters_accepted (props : list Property) :
  forall (lines : list string) (tool : Tool) (w : world) (rest : list string),
    Forall2 (fun p line => accepted p (answer p line)) props lines ->
    stdin w = (lines ++ rest)%list ->
    ask_parameters props tool w
    = (inr (assign (combine props (answers props lines)) tool),
       {| stdin := rest; stdout := (stdout w ++ map msg props)%list;
          stderr := stderr w; store_log := store_log w |}).
Proof.
  induction props as [| p props IH]; intros lines tool w rest Hall Hin;
    inversion Hall as [| p' line props' lines' Hp Hrest]; subst.
  - simpl in *. unfold ret. rewrite app_nil_r. destruct w; simpl in *.
    subst. reflexivity.
  - cbn [ask_parameters]. unfold bind, while_input.
    rewrite Hin. cbn [app ask_until]. rewrite (accept_answer p line Hp).
    cbv iota beta.
    rewrite (IH lines' _ _ rest Hrest) by reflexivity.
    cbn [stdout stderr store_log answers combine map assign fst snd].
    rewrite <- app_assoc. reflexivity.
Qed.

Lemma assign_label_shape (chosen : list (Property * string)) :
  forall tool : Tool,
    tool_label (assign chosen tool) = tool_label tool /\
    tool_shape (assign chosen tool) = tool_shape tool.
Proof.
  induction chosen as [| [p v] chosen IH]; intros tool; simpl;
    [split; reflexivity |].
  destruct (IH (set_param tool (propname p) v)) as [H1 H2].
  split; [rewrite H1 | rewrite H2]; reflexivity.
Qed.

Lemma assign_lookup_some (chosen : list (Property * string)) :
  forall (tool : Tool) (k : string),
    In k (map (fun c => propname (fst c)) chosen) ->
    is_Some (params (assign chosen tool) !! k).
Proof.
  induction chosen as [| [p v] chosen IH]; intros tool k Hk; simpl in *.
  - contradiction.
  - destruct (in_dec string_dec k (map (fun c => propname (fst c)) chosen))
      as [Hin | Hout].
    + apply IH. exact Hin.
    + rewrite assign_lookup_other by exact Hout.
      destruct Hk as [<- | Hk]; [| contradiction].
      simpl. rewrite lookup_insert_eq. eexists. reflexivity.
Qed.

(** With distinct names, the entry of a property holds the value chosen
    for it. *)
Lemma assign_lookup_value (chosen : list (Property * string)) :
  forall (tool : Tool) (p : Property) (v : string),
    List.NoDup (map (fun c => propname (fst c)) chosen) ->
    In (p, v) chosen ->
    params (assign chosen tool) !! propname p = Some v.
Proof.
  induction chosen as [| [q u] chosen IH]; intros tool p v Hnd Hin;
    simpl in *; [contradiction |].
  apply List.NoDup_cons_iff in Hnd. destruct Hnd as [Hq Hnd].
  destruct Hin as [Heq | Hin].
  - injection Heq as -> ->.
    rewrite assign_lookup_other by exact Hq.
    simpl. apply lookup_insert_eq.
  - apply IH; assumption.
Qed.

Lemma create_tool_answers_aux
    (new_Tool : string -> string -> exn + Tool)
    (get_shape_file_from_shape : string -> exn + string)
    (get_properties_from_shape : string -> exn + list Property)
    (shape : string) (w : world) (file : string)
    (props : list Property) (label : string)
    (lines rest : list string) (tool0 : Tool) :
  get_shape_file_from_shape shape = inr file ->
  get_properties_from_shape file = inr props ->
  stdin w = label :: (lines ++ rest)%list ->
  new_Tool label shape = inr tool0 ->
  Forall2 (fun p line => accepted p (answer p line)) props lines ->
  create_tool new_Tool get_shape_file_from_shape
    get_properties_from_shape shape w
  = (inr (assign (combine props (answers props lines)) tool0),
     {| stdin := rest;
        stdout := (stdout w ++ create_tool_header ++ map msg props)%list;
        stderr := stderr w; store_log := store_log w |}).
Proof.
  intros Hf Hp Hin Hnew Hall.
  unfold create_tool, bind, lift, input, print.
  rewrite Hf, Hp, Hin, Hnew.
  rewrite (ask_parameters_accepted props lines tool0 _ rest Hall)
    by reflexivity.
  cbn [stdout stderr store_log write_stdout create_tool_header].
  rewrite <- !app_assoc. reflexivity.
Qed.

End CreateToolMore.

Section CreateToolExtras.
Import py tooldb tooldb_manager.

(** X10: when the shape cannot be read, [create_tool] asks nothing. An
    exception of [get_shape_file_from_shape] is passed on with the world
    untouched; [ImportError] from [get_properties_from_shape] puts the
    FreeCAD message on standard error and exits with status 1; any other
    exception of [get_properties_from_shape] is passed on with the world
    untouched. *)
Theorem create_tool_shape_failure :
  forall (new_Tool : string -> string -> exn + Tool)
         (get_shape_file_from_shape : string -> exn + string)
         (get_properties_from_shape : string -> exn + list Property)
         (shape : string) (w : world),
    let run :=
      create_tool new_Tool get_shape_file_from_shape
        get_properties_from_shape shape w in
    (forall e, get_shape_file_from_shape shape = inl e -> run = (inl e, w)) /\
    (forall file,
       get_shape_file_from_shape shape = inr file ->
       get_properties_from_shape file = inl ImportError ->
       run = (inl (SystemExit 1), write_stderr import_error_message w) /\
       exit_status (fst run) = 1) /\
    (forall file e,
       get_shape_file_from_shape shape = inr file ->
       get_properties_from_shape file = inl e -> e <> ImportError ->
       run = (inl e, w)).
Proof.
  intros new_Tool gsf gpf shape w run. unfold run, create_tool, bind, lift.
  split; [| split].
  - intros e He. rewrite He. reflexivity.
  - intros file Hf Hp. rewrite Hf, Hp. split; reflexivity.
  - intros file e Hf Hp Hne. rewrite Hf, Hp.
    destruct e; try reflexivity. contradiction.
Qed.

(** X11: when every line typed at a parameter prompt is acceptable (the
    property has no enumeration, or the value the line stands for is in
    it), [create_tool] reads the label and one line per property, writes
    the label prompt, the heading and one prompt per property, and returns
    the new tool with the values assigned in the order of the
    properties. *)
Theorem create_tool_answers_accepted :
  forall (new_Tool : string -> string -> exn + Tool)
         (get_shape_file_from_shape : string -> exn + string)
         (get_properties_from_shape : string -> exn + list Property)
         (shape : string) (w : world) (file : string)
         (props : list Property) (label : string)
         (lines rest : list string) (tool0 : Tool),
    get_shape_file_from_shape shape = inr file ->
    get_properties_from_shape file = inr props ->
    stdin w = label :: (lines ++ rest)%list ->
    new_Tool label shape = inr tool0 ->
    Forall2 (fun p line => accepted p (answer p line)) props lines ->
    create_tool new_Tool get_shape_file_from_shape
      get_properties_from_shape shape w
    = (inr (assign (combine props (answers props lines)) tool0),
       {| stdin := rest;
          stdout := (stdout w ++ create_tool_header ++ map msg props)%list;
          stderr := stderr w; store_log := store_log w |}).
Proof.
  intros new_Tool gsf gpf shape w file props label lines rest tool0.
  apply create_tool_answers_aux.
Qed.

Lemma create_tool_answers_accepted_witness :
  exists tool w',
    create_tool Tool_create sample_shape_file sample_properties "endmill"
      (start ["T1"; "8 mm"; ""; "TiN"; "left over"]) = (inr tool, w') /\
    stdin w' = ["left over"] /\
    params tool !! "Diameter" = Some "8 mm" /\
    params tool !! "Material" = Some "HSS".
Proof.
  eexists _, _.
  split.
  - apply (create_tool_answers_accepted Tool_create sample_shape_file
             sample_properties "endmill"
             (start ["T1"; "8 mm"; ""; "TiN"; "left over"])
             "endmill.fcstd" endmill_properties "T1"
             ["8 mm"; ""; "TiN"] ["left over"]
             {| tool_label := "T1"; tool_shape := "endmill"; params := ∅ |});
      try reflexivity.
    constructor; [| constructor; [| constructor; [| constructor]]];
      unfold accepted, answer; simpl; intros H; try discriminate H; tauto.
  - split; [reflexivity |]. split; reflexivity.
Defined.

(** X12: pressing enter at every prompt accepts the defaults: with a
    non-empty label, distinct property names and every default acceptable,
    [create_tool] returns a tool with the label typed, the shape asked for
    and a parameter map that holds exactly the default of every
    property. *)
Theorem create_tool_enter_accepts_defaults :
  forall (get_shape_file_from_shape : string -> exn + string)
         (get_properties_from_shape : string -> exn + list Property)
         (shape : string) (w : world) (file : string)
         (props : list Property) (label : string) (rest : list string),
    get_shape_file_from_shape shape = inr file ->
    get_properties_from_shape file = inr props ->
    label <> "" ->
    stdin w = label :: (repeat "" (length props) ++ rest)%list ->
    List.NoDup (map propname props) ->
    Forall (fun p => accepted p (value p)) props ->
    exists tool w',
      create_tool Tool_create get_shape_file_from_shape
        get_properties_from_shape shape w = (inr tool, w') /\
      stdin w' = rest /\
      tool_label tool = label /\ tool_shape tool = shape /\
      (forall p, In p props -> params tool !! propname p = Some (value p)) /\
      (forall k, ~ In k (map propname props) -> params tool !! k = None).
Proof.
  intros gsf gpf shape w file props label rest Hf Hp Hlabel Hin Hnd Hall.
  assert (Hnew : Tool_create label shape
                 = inr {| tool_label := label; tool_shape := shape;
                          params := ∅ |}).
  { unfold Tool_create.
    destruct (String.eqb_spec label "") as [-> | _];
      [contradiction | reflexivity]. }
  assert (Hans : answers props (repeat "" (length props)) = map value props).
  { clear. induction props as [| p props IH]; [reflexivity |].
    unfold answers in *. simpl. rewrite IH. reflexivity. }
  assert (Hacc : Forall2 (fun p line => accepted p (answer p line)) props
                   (repeat "" (length props))).
  { clear - Hall. induction Hall as [| p props Hp Hall IH]; simpl;
      constructor; assumption. }
  rewrite (create_tool_answers_aux Tool_create gsf gpf shape w file props
             label _ rest _ Hf Hp Hin Hnew Hacc).
  eexists _, _. split; [reflexivity |].
  split; [reflexivity |].
  rewrite Hans.
  destruct (assign_label_shape (combine props (map value props))
              {| tool_label := label; tool_shape := shape; params := ∅ |})
    as [Hl Hs].
  assert (Hnames : map (fun c : Property * string => propname (fst c))
                     (combine props (map value props)) = map propname props).
  { clear. induction props as [| p props IH]; simpl; [reflexivity |].
    rewrite IH. reflexivity. }
  split; [exact Hl |]. split; [exact Hs |].
  split.
  - intros p Hin'. apply assign_lookup_value.
    + rewrite Hnames. exact Hnd.
    + clear - Hin'. induction props as [| q props IH]; simpl in *;
        [contradiction |].
      destruct Hin' as [-> | Hin']; [left; reflexivity | right; apply IH; exact Hin'].
  - intros k Hk. rewrite assign_lookup_other by (rewrite Hnames; exact Hk).
    apply lookup_empty.
Qed.

Lemma create_tool_enter_accepts_defaults_witness :
  exists tool w',
    create_tool Tool_create sample_shape_file
      (fun _ => inr [diameter_property; material_property]) "endmill"
      (start ["T2"; ""; ""]) = (inr tool, w') /\
    params tool !! "Diameter" = Some "6 mm" /\
    params tool !! "Material" = Some "HSS".
Proof.
  destruct (create_tool_enter_accepts_defaults sample_shape_file
              (fun _ => inr [diameter_property; material_property]) "endmill"
              (start ["T2"; ""; ""]) "endmill.fcstd"
              [diameter_property; material_property] "T2" [])
    as (tool & w' & Hrun & _ & _ & _ & Hval & _);
    try reflexivity.
  - discriminate.
  - simpl. repeat constructor; simpl; intuition discriminate.
  - constructor; [| constructor; [| constructor]];
      unfold accepted; simpl; intros H; try discriminate H; tauto.
  - exists tool, w'. split; [exact Hrun |].
    split.
    + apply (Hval diameter_property). simpl. tauto.
    + apply (Hval material_property). simpl. tauto.
Defined.

(** X13: a value outside a non-empty enumeration is not stored: the line
    is dropped, the same prompt has been written, and the parameter loop
    goes on from there as if the line had not been typed. *)
Theorem ask_parameters_asks_again :
  forall (p : Property) (props : list Property) (tool : Tool) (w : world)
         (line : string) (rest : list string),
    stdin w = line :: rest ->
    enum_given (enum p) = true ->
    ~ In (answer p line) (enum_values (enum p)) ->
    ask_parameters (p :: props) tool w
    = ask_parameters (p :: props) tool
        {| stdin := rest; stdout := (stdout w ++ [msg p])%list;
           stderr := stderr w; store_log := store_log w |}.
Proof.
  intros p props tool w line rest Hin Hgiven Hout.
  cbn [ask_parameters]. unfold bind, while_input.
  rewrite Hin. cbn [ask_until stdin stdout stderr store_log].
  rewrite (accept_reject p line Hgiven Hout). reflexivity.
Qed.

Lemma ask_parameters_asks_again_witness :
  fst (ask_parameters [coating_property]
         {| tool_label := "T"; tool_shape := "endmill"; params := ∅ |}
         (start ["gold"; "TiAlN"]))
  = inr (set_param
           {| tool_label := "T"; tool_shape := "endmill"; params := ∅ |}
           "Coating" "TiAlN").
Proof.
  rewrite (ask_parameters_asks_again coating_property [] _
             (start ["gold"; "TiAlN"]) "gold" ["TiAlN"] eq_refl eq_refl)
    by (simpl; intuition discriminate).
  reflexivity.
Defined.

End CreateToolExtras.

Section CreateToolMore2.
Import py tooldb tooldb_manager.

Lemma create_tool_store_log
    (new_Tool : string -> string -> exn + Tool)
    (get_shape_file_from_shape : string -> exn + string)
    (get_properties_from_shape : string -> exn + list Property)
    (shape : string) (w : world) :
  store_log (snd (create_tool new_Tool get_shape_file_from_shape
                    get_properties_from_shape shape w)) = store_log w.
Proof.
  unfold create_tool, bind, lift, input, print.
  destruct (get_shape_file_from_shape shape) as [e | file]; [reflexivity |].
  destruct (get_properties_from_shape file) as [e | props].
  - destruct e; reflexivity.
  - destruct (stdin w) as [| label rest]; [reflexivity |].
    destruct (new_Tool label shape) as [e | tool0]; [reflexivity |].
    match goal with
    | |- store_log (snd (ask_parameters ?ps ?t ?w0)) = _ =>
        destruct (ask_parameters_frame ps t w0) as (_ & H & _)
    end.
    exact H.
Qed.

End CreateToolMore2.

Section CreateToolExtras2.
Import py tooldb tooldb_manager.

(** X14: the tool that [create_tool] returns is the one the constructor
    built from the first line typed and the shape, with its label and its
    shape unchanged; every property name is a key of its parameter map,
    and the entries under other keys are those the constructor left. *)
Theorem create_tool_parameter_keys :
  forall (new_Tool : string -> string -> exn + Tool)
         (get_shape_file_from_shape : string -> exn + string)
         (get_properties_from_shape : string -> exn + list Property)
         (shape : string) (w : world) (tool : Tool) (w' : world),
    create_tool new_Tool get_shape_file_from_shape
      get_properties_from_shape shape w = (inr tool, w') ->
    exists file props label rest tool0,
      get_shape_file_from_shape shape = inr file /\
      get_properties_from_shape file = inr props /\
      stdin w = label :: rest /\
      new_Tool label shape = inr tool0 /\
      tool_label tool = tool_label tool0 /\
      tool_shape tool = tool_shape tool0 /\
      (forall k, In k (map propname props) -> is_Some (params tool !! k)) /\
      (forall k, ~ In k (map propname props) ->
         params tool !! k = params tool0 !! k).
Proof.
  intros new_Tool gsf gpf shape w tool w' Hrun.
  destruct (create_tool_inr _ _ _ _ _ _ _ Hrun)
    as (file & props & label & rest & tool0 & w1
        & Hfile & Hprops & Hin & Hnew & Hask).
  destruct (ask_parameters_assign _ _ _ _ _ Hask) as (vals & Hall & ->).
  exists file, props, label, rest, tool0.
  split; [exact Hfile |]. split; [exact Hprops |].
  split; [exact Hin |]. split; [exact Hnew |].
  destruct (assign_label_shape (combine props vals) tool0) as [Hl Hs].
  split; [exact Hl |]. split; [exact Hs |].
  split.
  - intros k Hk. apply assign_lookup_some.
    rewrite (combine_names props vals Hall). exact Hk.
  - intros k Hk. apply assign_lookup_other.
    rewrite (combine_names props vals Hall). exact Hk.
Qed.

Lemma create_tool_parameter_keys_witness :
  exists tool w',
    create_tool Tool_create sample_shape_file sample_properties "endmill"
      (start ["T1"; ""; "Carbide"; "TiN"]) = (inr tool, w') /\
    tool_label tool = "T1" /\
    is_Some (params tool !! "Coating") /\
    params tool !! "Flutes" = None.
Proof.
  eexists _, _.
  split; [vm_compute; reflexivity |].
  edestruct (create_tool_parameter_keys Tool_create sample_shape_file
               sample_properties "endmill"
               (start ["T1"; ""; "Carbide"; "TiN"]))
    as (file & props & label & rest & tool0
        & Hf & Hp & Hin & Hnew & Hl & _ & Hkeys & Hother).
  { vm_compute. reflexivity. }
  injection Hf as <-. injection Hp as <-. injection Hin as <- <-.
  injection Hnew as <-.
  split; [exact Hl |].
  split.
  - apply Hkeys. simpl. tauto.
  - rewrite Hother by (simpl; intuition discriminate). reflexivity.
Defined.


End CreateToolExtras2.

(** ** More on the dispatch *)

Section MainMore.
Import py tooldb tooldb_manager.
Context {Library ToolDB : Type} (pkg : Package Library ToolDB).

Lemma print_all_run (lines : list string) (w : world) :
  print_all lines w
  = (inr tt,
     {| stdin := stdin w;
        stdout := (stdout w ++ map (fun line => (line ++ newline)%string) lines)%list;
        stderr := stderr w; store_log := store_log w |}).
Proof.
  revert w. induction lines as [| l lines IH]; intros w; cbn [print_all map].
  - unfold ret. rewrite app_nil_r. destruct w; reflexivity.
  - unfold bind, print. rewrite IH. simpl. rewrite <- app_assoc. reflexivity.
Qed.

(** [ls] touches nothing but standard output. *)
Lemma ls_objects_frame (db : ToolDB) (objects : list string) (w : world) :
  let w' := snd (ls_objects pkg db objects w) in
  stdin w' = stdin w /\ stderr w' = stderr w /\ store_log w' = store_log w.
Proof.
  revert w. induction objects as [| obj objects IH]; intros w;
    cbn [ls_objects].
  - repeat split.
  - unfold bind.
    destruct (String.eqb obj "libraries");
      [| destruct (String.eqb obj "tools");
         [| destruct (String.eqb obj "all" || String.eqb obj "")]];
      try rewrite print_all_run;
      try (unfold raise; simpl; repeat split; fail);
      (match goal with
       | |- context [ls_objects pkg db objects ?w0] =>
           destruct (IH w0) as (H1 & H2 & H3)
       end; cbv zeta; rewrite H1, H2, H3; repeat split).
Qed.

Lemma ls_objects_run (db : ToolDB) (objects : list string) (w : world) :
  Forall (fun obj => In obj ls_choices) objects ->
  ls_objects pkg db objects w
  = (inr tt,
     {| stdin := stdin w;
        stdout := (stdout w ++ flat_map (ls_output pkg db) objects)%list;
        stderr := stderr w; store_log := store_log w |}).
Proof.
  intros Hall. revert w.
  induction Hall as [| obj objects Hobj Hall IH]; intros w;
    cbn [ls_objects flat_map].
  - unfold ret. rewrite app_nil_r. destruct w; reflexivity.
  - assert (Hstep :
      (if String.eqb obj "libraries"
       then print_all (map (str_Library pkg) (libraries_values pkg db))
       else if String.eqb obj "tools"
       then print_all (map (str_Tool pkg) (tools_values pkg db))
       else if String.eqb obj "all" || String.eqb obj ""
       then print_all (dump pkg db)
       else raise AttributeError)
      = print_all (ls_lines pkg db obj)).
    { simpl in Hobj. destruct Hobj as [<- | [<- | [<- | []]]]; reflexivity. }
    unfold bind. rewrite Hstep, print_all_run, IH. unfold ls_output.
    simpl. rewrite <- app_assoc. reflexivity.
Qed.

End MainMore.

Section MainExtras.
Import py tooldb tooldb_manager.

(** X16: when the database cannot be loaded no command runs: whatever the
    arguments, the exception of the load ends the script, with nothing
    written and no store event but the load. *)
Theorem main_load_failure :
  forall (Library ToolDB : Type) (pkg : Package Library ToolDB)
         (args : Args) (w : world) (e : exn),
    deserialize pkg (serializer_of args) = inl e ->
    main pkg args w = (inl e, record_event (LoadedDB (serializer_of args)) w).
Proof.
  intros Library ToolDB pkg args w e He.
  unfold main, bind, db_deserialize, bind, log_event, lift.
  fold (serializer_of args). rewrite He. reflexivity.
Qed.

Lemma main_load_failure_witness :
  main (with_deserialize sample_package (fun _ => inl (OtherError "FileNotFoundError")))
    (ls_args "freecad" "tools" ["all"]) (start [])
  = (inl (OtherError "FileNotFoundError"),
     {| stdin := []; stdout := []; stderr := [];
        store_log := [LoadedDB {| ser_format := "freecad"; ser_name := "tools" |}] |}).
Proof.
  rewrite (main_load_failure _ _
             (with_deserialize sample_package
                (fun _ => inl (OtherError "FileNotFoundError")))
             (ls_args "freecad" "tools" ["all"]) (start [])
             (OtherError "FileNotFoundError") eq_refl).
  reflexivity.
Defined.

(** X17: [ls] with objects its parser admits, and a command line without
    command, only read: the script asks nothing of the store but the
    load, standard input is not read and the script writes nothing to
    standard error, whether the load succeeds or not. What the package
    prints enters as the lines its operations return. Without a command,
    once the database has loaded, the script prints [no command given,
    nothing to do] and ends normally. *)
Theorem main_ls_reads_only :
  forall (Library ToolDB : Type) (pkg : Package Library ToolDB)
         (args : Args) (w : world),
    command args = None \/
    (exists objects,
       command args = Some (command_ls objects) /\
       Forall (fun obj => In obj ls_choices) objects) ->
    let w' := snd (main pkg args w) in
    store_log w' = (store_log w ++ [LoadedDB (serializer_of args)])%list /\
    stdin w' = stdin w /\ stderr w' = stderr w /\
    (forall db,
       command args = None ->
       deserialize pkg (serializer_of args) = inr db ->
       fst (main pkg args w) = inr tt /\
       stdout w'
         = (stdout w
              ++ [("no command given, nothing to do" ++ newline)%string])%list).
Proof.
  intros Library ToolDB pkg args w Hcmd.
  unfold main, bind, db_deserialize, bind, log_event, lift.
  fold (serializer_of args).
  destruct (deserialize pkg (serializer_of args)) as [e | db] eqn:Edb.
  - cbv zeta. cbn [snd fst].
    split; [reflexivity |]. split; [reflexivity |]. split; [reflexivity |].
    intros db _ Hdb. discriminate Hdb.
  - destruct Hcmd as [-> | (objects & -> & Hall)].
    + cbv zeta. unfold print, write_stdout. cbn.
      split; [reflexivity |]. split; [reflexivity |]. split; [reflexivity |].
      intros db' _ _. split; reflexivity.
    + match goal with
      | |- context [ls_objects pkg db objects ?w0] =>
          destruct (ls_objects_frame pkg db objects w0) as (H1 & H2 & H3)
      end.
      cbv zeta. rewrite H1, H2, H3.
      split; [reflexivity |]. split; [reflexivity |]. split; [reflexivity |].
      intros db' Hnone. discriminate Hnone.
Qed.

Lemma main_ls_reads_only_witness :
  store_log (snd (main sample_package
                    (ls_args "freecad" "tools" ["libraries"; "all"])
                    (start ["typed"])))
  = [LoadedDB {| ser_format := "freecad"; ser_name := "tools" |}].
Proof.
  destruct (main_ls_reads_only _ _ sample_package
              (ls_args "freecad" "tools" ["libraries"; "all"])
              (start ["typed"])) as (H & _ & _).
  - right. exists ["libraries"; "all"]. split; [reflexivity |].
    repeat constructor; simpl; tauto.
  - exact H.
Defined.

(** X18: when the database loads, [ls] with objects among [all],
    [libraries] and [tools] prints, object by object in the order given,
    the libraries, the tools or the dump, one line each, and ends
    normally. *)
Theorem main_ls_output :
  forall (Library ToolDB : Type) (pkg : Package Library ToolDB)
         (fmt db_name : string) (objects : list string) (w : world)
         (db : ToolDB),
    deserialize pkg {| ser_format := fmt; ser_name := db_name |} = inr db ->
    Forall (fun obj => In obj ls_choices) objects ->
    main pkg (ls_args fmt db_name objects) w
    = (inr tt,
       {| stdin := stdin w;
          stdout := (stdout w ++ flat_map (ls_output pkg db) objects)%list;
          stderr := stderr w;
          store_log := (store_log w
                          ++ [LoadedDB {| ser_format := fmt;
                                          ser_name := db_name |}])%list |}).
Proof.
  intros Library ToolDB pkg fmt db_name objects w db Hdb Hall.
  unfold main, bind, db_deserialize, bind, log_event, lift, ls_args.
  cbn [format name command]. rewrite Hdb.
  rewrite (ls_objects_run pkg db objects _ Hall). reflexivity.
Qed.

Lemma main_ls_output_witness :
  stdout (snd (main sample_package
                 (ls_args "freecad" "tools" ["libraries"; "all"]) (start [])))
  = ["Default" ++ newline; "Default" ++ newline].
Proof.
  rewrite (main_ls_output _ _ sample_package "freecad" "tools"
             ["libraries"; "all"] (start []) [library "Default"] eq_refl).
  - reflexivity.
  - repeat constructor; simpl; tauto.
Defined.

(** X19: when the database loads, [export] announces the target format
    and saves the database through a serializer built from the output
    format and the output name, and through no other; the script ends
    normally unless that save raises. *)
Theorem main_export :
  forall (Library ToolDB : Type) (pkg : Package Library ToolDB)
         (fmt db_name output_format output : string) (w : world)
         (db : ToolDB),
    let source := {| ser_format := fmt; ser_name := db_name |} in
    let target := {| ser_format := output_format; ser_name := output |} in
    deserialize pkg source = inr db ->
    main pkg (export_args fmt db_name output_format output) w
    = (match serialize pkg db target with
       | Some e => inl e
       | None => inr tt
       end,
       {| stdin := stdin w;
          stdout := (stdout w ++ [(("Exporting as " ++ output_format)
                                   ++ newline)%string])%list;
          stderr := stderr w;
          store_log := (store_log w ++ [LoadedDB source; SavedDB target])%list |}).
Proof.
  intros Library ToolDB pkg fmt db_name output_format output w db
         source target Hdb.
  unfold main, bind, db_deserialize, db_serialize, bind, log_event, lift,
    print, of_failure, export_args.
  cbn [format name command]. fold source. rewrite Hdb. fold target.
  destruct (serialize pkg db target);
    unfold raise, ret, record_event, write_stdout; simpl;
    rewrite <- app_assoc; reflexivity.
Qed.

Lemma main_export_witness :
  store_log (snd (main sample_package
                    (export_args "freecad" "tools" "linuxcnc" "tool.tbl")
                    (start [])))
  = [LoadedDB {| ser_format := "freecad"; ser_name := "tools" |};
     SavedDB {| ser_format := "linuxcnc"; ser_name := "tool.tbl" |}].
Proof.
  rewrite (main_export _ _ sample_package "freecad" "tools" "linuxcnc"
             "tool.tbl" (start []) [library "Default"] eq_refl).
  reflexivity.
Defined.

(** X20: [create] without an object, once the database is loaded, is an
    argument error: usage and [requested unsupported object: None] go to
    standard error, the exit status is 2, and nothing is saved. *)
Theorem main_create_without_object :
  forall (Library ToolDB : Type) (pkg : Package Library ToolDB)
         (fmt db_name : string) (w : world) (db : ToolDB),
    let source := {| ser_format := fmt; ser_name := db_name |} in
    deserialize pkg source = inr db ->
    main pkg (create_nothing_args fmt db_name) w
    = (inl (SystemExit 2),
       {| stdin := stdin w; stdout := stdout w;
          stderr := (stderr w
                       ++ [usage pkg;
                           (prog pkg
                              ++ ": error: requested unsupported object: None"
                              ++ newline)%string])%list;
          store_log := (store_log w ++ [LoadedDB source])%list |}).
Proof.
  intros Library ToolDB pkg fmt db_name w db source Hdb.
  unfold main, bind, db_deserialize, bind, log_event, lift, parser_error,
    bind, stderr_write, raise, create_nothing_args.
  cbn [format name command]. fold source. rewrite Hdb.
  unfold write_stderr, record_event. simpl.
  rewrite <- app_assoc. reflexivity.
Qed.

Lemma main_create_without_object_witness :
  exit_status (fst (main sample_package (create_nothing_args "freecad" "tools")
                      (start []))) = 2.
Proof.
  rewrite (main_create_without_object _ _ sample_package "freecad" "tools"
             (start []) [library "Default"] eq_refl).
  reflexivity.
Defined.

End MainExtras.

Section MainExtras2.
Import py tooldb tooldb_manager.

(** X21: [create tool] saves last. After the load, the store events are
    none, or the save of one library, or that save followed by the save of
    the database, all through the serializer of the command line. Something
    is saved only when a library was selected, the tool was created and
    [add_tool] returned, and the library saved is the one [add_tool] gave
    back; a run that ends normally has saved the library and then the
    database. *)
Theorem main_create_tool_saves_last :
  forall (Library ToolDB : Type) (pkg : Package Library ToolDB)
         (fmt db_name shape : string) (w : world),
    let source := {| ser_format := fmt; ser_name := db_name |} in
    let run := main pkg (create_tool_args fmt db_name shape) w in
    exists saved,
      store_log (snd run) = (store_log w ++ LoadedDB source :: saved)%list /\
      (saved = [] \/
       exists lbl, saved = [SavedLibrary lbl source] \/
                   saved = [SavedLibrary lbl source; SavedDB source]) /\
      (fst run = inr tt ->
       exists lbl, saved = [SavedLibrary lbl source; SavedDB source]) /\
      (saved <> [] ->
       exists db lib w1 tool w2 db' lib' more,
         deserialize pkg source = inr db /\
         select_library (python_int_elsewhere pkg) (label pkg) (get_libraries pkg db)
           (record_event (LoadedDB source) w) = (inr lib, w1) /\
         create_tool (new_Tool pkg) (get_shape_file_from_shape pkg)
           (get_properties_from_shape pkg) shape
           (write_stdout
              (("Tool will be added to library " ++ dquote
                  ++ label pkg lib ++ dquote ++ ".") ++ newline) w1)
           = (inr tool, w2) /\
         add_tool pkg db tool lib = inr (db', lib') /\
         saved = SavedLibrary (label pkg lib') source :: more).
Proof.
  intros Library ToolDB pkg fmt db_name shape w source run.
  unfold run, main, create_tool_args.
  cbn [format name command]. fold source.
  unfold bind at 1. unfold db_deserialize, bind, log_event, lift.
  destruct (deserialize pkg source) as [e | db] eqn:Edb.
  { exists []. cbn [fst snd store_log record_event].
    split; [reflexivity |]. split; [left; reflexivity |].
    split; [discriminate | intros H; contradiction]. }
  pose proof (select_library_store_log (python_int_elsewhere pkg) (label pkg) (get_libraries pkg db)
                (record_event (LoadedDB source) w)) as Hsel.
  destruct (select_library (python_int_elsewhere pkg) (label pkg) (get_libraries pkg db)
              (record_event (LoadedDB source) w)) as [[e | lib] w1] eqn:Esel.
  { exists []. cbn [fst snd] in *. rewrite Hsel.
    split; [reflexivity |]. split; [left; reflexivity |].
    split; [discriminate | intros H; contradiction]. }
  cbn [snd] in Hsel. unfold print.
  set (w1' := write_stdout _ w1).
  pose proof (create_tool_store_log (new_Tool pkg)
                (get_shape_file_from_shape pkg)
                (get_properties_from_shape pkg) shape w1') as Hct.
  destruct (create_tool (new_Tool pkg) (get_shape_file_from_shape pkg)
              (get_properties_from_shape pkg) shape w1')
    as [[e | tool] w2] eqn:Ect.
  { exists []. cbn [fst snd] in *. rewrite Hct. unfold w1'. simpl.
    rewrite Hsel.
    split; [reflexivity |]. split; [left; reflexivity |].
    split; [discriminate | intros H; contradiction]. }
  cbn [snd] in Hct.
  assert (Hw2 : store_log w2 = (store_log w ++ [LoadedDB source])%list).
  { rewrite Hct. unfold w1'. simpl. exact Hsel. }
  destruct (add_tool pkg db tool lib) as [e | [db' lib']] eqn:Eadd.
  { exists []. cbn [fst snd]. rewrite Hw2.
    split; [reflexivity |]. split; [left; reflexivity |].
    split; [discriminate | intros H; contradiction]. }
  unfold library_serialize, db_serialize, bind, log_event, of_failure, raise, ret.
  cbn [fst snd].
  destruct (serialize_library pkg lib' source) as [e |].
  { exists [SavedLibrary (label pkg lib') source].
    cbn [fst snd store_log record_event]. rewrite Hw2, <- app_assoc.
    split; [reflexivity |].
    split; [right; eexists; left; reflexivity |].
    split; [discriminate |].
    intros _. exists db, lib, w1, tool, w2, db', lib', [].
    repeat split; try assumption; reflexivity. }
  destruct (serialize pkg db' source) as [e |].
  { exists [SavedLibrary (label pkg lib') source; SavedDB source].
    cbn [fst snd store_log record_event]. rewrite Hw2, <- !app_assoc.
    split; [reflexivity |].
    split; [right; eexists; right; reflexivity |].
    split; [discriminate |].
    intros _. exists db, lib, w1, tool, w2, db', lib', [SavedDB source].
    repeat split; try assumption; reflexivity. }
  exists [SavedLibrary (label pkg lib') source; SavedDB source].
  cbn [fst snd store_log record_event]. rewrite Hw2, <- !app_assoc.
  split; [reflexivity |].
  split; [right; eexists; right; reflexivity |].
  split; [intros _; eexists; reflexivity |].
  intros _. exists db, lib, w1, tool, w2, db', lib', [SavedDB source].
  repeat split; try assumption; reflexivity.
Qed.

(** The scenario evaluated: one library, a tool created with the
    defaults where they are allowed. *)
Example create_tool_on_sample :
  main sample_package (create_tool_args "freecad" "tools" "endmill")
    (start ["T1"; ""; ""; "TiN"])
  = (inr tt,
     {| stdin := [];
        stdout :=
          [("Tool will be added to library " ++ dquote ++ "Default"
              ++ dquote ++ ".") ++ newline;
           "Please enter a tool name (label): ";
           "Please enter the tool parameters (enter accepts default)."
             ++ newline;
           msg diameter_property; msg material_property;
           msg coating_property];
        stderr := [];
        store_log :=
          [LoadedDB {| ser_format := "freecad"; ser_name := "tools" |};
           SavedLibrary "Default"
             {| ser_format := "freecad"; ser_name := "tools" |};
           SavedDB {| ser_format := "freecad"; ser_name := "tools" |}] |}).
Proof. vm_compute. reflexivity. Qed.

End MainExtras2.
